(** * xredis: typed command layer over a Redis connection

    A shallow embedding of the Go package [redis] of mkbeh/xredis
    (client.go, options.go and the error values) and the properties of its
    configuration resolver, identity resolver, construction sequence, typed
    readers and pipelined hash writers. *)

From Stdlib Require Import String Ascii List ZArith Bool Lia.
Import ListNotations.
Local Open Scope string_scope.
Local Open Scope Z_scope.
Set Warnings "-register-all".

(** ** Go base types *)

(** Go's [int] and [time.Duration] are 64-bit signed integers; arithmetic
    wraps around. *)
Definition wrap64 (z : Z) : Z := (z + 2 ^ 63) mod 2 ^ 64 - 2 ^ 63.

Definition int_add (a b : Z) : Z := wrap64 (a + b).

(** [len(s)] of a Go string: its number of bytes. *)
Definition len (s : string) : Z := Z.of_nat (String.length s).

(** [len(a)] of a slice. *)
Definition len_slice {A : Type} (a : list A) : Z := Z.of_nat (List.length a).

(** ** package strings *)

Module strings.

(** [strings.HasPrefix(s, prefix)]. *)
Fixpoint HasPrefix (s prefix : string) {struct prefix} : bool :=
  match prefix with
  | EmptyString => true
  | String p prefix' =>
      match s with
      | EmptyString => false
      | String c s' => Ascii.eqb c p && HasPrefix s' prefix'
      end
  end.

(** The loop of [strings.Split(s, sep)] for a non-empty separator: cut at
    every occurrence of [sep], left to right, occurrences not overlapping.
    [skip] counts the bytes of a separator still to be dropped and [cur]
    holds the bytes of the piece being read, last byte first. *)
Fixpoint genSplit (sep : string) (skip : nat) (cur : list ascii) (s : string)
  : list string :=
  match s with
  | EmptyString => [string_of_list_ascii (rev cur)]
  | String c s' =>
      match skip with
      | S k => genSplit sep k cur s'
      | O =>
          if HasPrefix s sep
          then string_of_list_ascii (rev cur)
                 :: genSplit sep (Nat.pred (String.length sep)) [] s'
          else genSplit sep O (c :: cur) s'
      end
  end.

(** [strings.Split(s, sep)]; with an empty separator Go explodes [s] into
    its characters (here: bytes), and the empty string gives no piece. *)
Definition Split (s sep : string) : list string :=
  match sep with
  | EmptyString => map (fun c => String c EmptyString) (list_ascii_of_string s)
  | _ => genSplit sep O [] s
  end.

End strings.

(** ** options.go: the configuration record *)

(** [type Config struct]: the flat configuration record. *)
Record Config : Type := {
  Network : string;
  Addrs : string;
  Protocol : Z;
  Username : string;
  Password : string;
  DB : Z;
  MaxRedirects : Z;
  ReadOnly : bool;
  RouteByLatency : bool;
  RouteRandomly : bool;
  MaxRetries : Z;
  MinRetryBackoff : Z;
  MaxRetryBackoff : Z;
  DialTimeout : Z;
  ReadTimeout : Z;
  WriteTimeout : Z;
  ContextTimeoutEnabled : bool;
  PoolFIFO : bool;
  PoolSize : Z;
  PoolTimeout : Z;
  MinIdleConns : Z;
  MaxIdleConns : Z;
  MaxActiveConns : Z;
  ConnMaxIdleTime : Z;
  ConnMaxLifetime : Z;
  DisableIndentity : bool;
  UnstableResp3 : bool
}.

(** [defaultConfig()]. *)
Definition defaultConfig : Config := {|
  Network := ""; Addrs := "127.0.0.1:6379"; Protocol := 0;
  Username := ""; Password := "";
  DB := 0; MaxRedirects := 0;
  ReadOnly := true; RouteByLatency := false; RouteRandomly := false;
  MaxRetries := 0; MinRetryBackoff := 0; MaxRetryBackoff := 0;
  DialTimeout := 0; ReadTimeout := 0; WriteTimeout := 0;
  ContextTimeoutEnabled := false;
  PoolFIFO := false; PoolSize := 0; PoolTimeout := 0;
  MinIdleConns := 0; MaxIdleConns := 0; MaxActiveConns := 0;
  ConnMaxIdleTime := 0; ConnMaxLifetime := 0;
  DisableIndentity := false; UnstableResp3 := false
|}.

(** A configuration with the three routing flags replaced. *)
Definition withRouting (readOnly byLatency randomly : bool) (cfg : Config)
  : Config := {|
  Network := cfg.(Network); Addrs := cfg.(Addrs); Protocol := cfg.(Protocol);
  Username := cfg.(Username); Password := cfg.(Password);
  DB := cfg.(DB); MaxRedirects := cfg.(MaxRedirects);
  ReadOnly := readOnly; RouteByLatency := byLatency; RouteRandomly := randomly;
  MaxRetries := cfg.(MaxRetries);
  MinRetryBackoff := cfg.(MinRetryBackoff);
  MaxRetryBackoff := cfg.(MaxRetryBackoff);
  DialTimeout := cfg.(DialTimeout); ReadTimeout := cfg.(ReadTimeout);
  WriteTimeout := cfg.(WriteTimeout);
  ContextTimeoutEnabled := cfg.(ContextTimeoutEnabled);
  PoolFIFO := cfg.(PoolFIFO); PoolSize := cfg.(PoolSize);
  PoolTimeout := cfg.(PoolTimeout);
  MinIdleConns := cfg.(MinIdleConns); MaxIdleConns := cfg.(MaxIdleConns);
  MaxActiveConns := cfg.(MaxActiveConns);
  ConnMaxIdleTime := cfg.(ConnMaxIdleTime);
  ConnMaxLifetime := cfg.(ConnMaxLifetime);
  DisableIndentity := cfg.(DisableIndentity);
  UnstableResp3 := cfg.(UnstableResp3)
|}.

(** A configuration with the address field and the redirect budget
    replaced. *)
Definition withAddrs (addrs : string) (maxRedirects : Z) (cfg : Config)
  : Config := {|
  Network := cfg.(Network); Addrs := addrs; Protocol := cfg.(Protocol);
  Username := cfg.(Username); Password := cfg.(Password);
  DB := cfg.(DB); MaxRedirects := maxRedirects;
  ReadOnly := cfg.(ReadOnly); RouteByLatency := cfg.(RouteByLatency);
  RouteRandomly := cfg.(RouteRandomly);
  MaxRetries := cfg.(MaxRetries);
  MinRetryBackoff := cfg.(MinRetryBackoff);
  MaxRetryBackoff := cfg.(MaxRetryBackoff);
  DialTimeout := cfg.(DialTimeout); ReadTimeout := cfg.(ReadTimeout);
  WriteTimeout := cfg.(WriteTimeout);
  ContextTimeoutEnabled := cfg.(ContextTimeoutEnabled);
  PoolFIFO := cfg.(PoolFIFO); PoolSize := cfg.(PoolSize);
  PoolTimeout := cfg.(PoolTimeout);
  MinIdleConns := cfg.(MinIdleConns); MaxIdleConns := cfg.(MaxIdleConns);
  MaxActiveConns := cfg.(MaxActiveConns);
  ConnMaxIdleTime := cfg.(ConnMaxIdleTime);
  ConnMaxLifetime := cfg.(ConnMaxLifetime);
  DisableIndentity := cfg.(DisableIndentity);
  UnstableResp3 := cfg.(UnstableResp3)
|}.

(** A configuration with the protocol version replaced. *)
Definition withProtocol (protocol : Z) (cfg : Config) : Config := {|
  Network := cfg.(Network); Addrs := cfg.(Addrs); Protocol := protocol;
  Username := cfg.(Username); Password := cfg.(Password);
  DB := cfg.(DB); MaxRedirects := cfg.(MaxRedirects);
  ReadOnly := cfg.(ReadOnly); RouteByLatency := cfg.(RouteByLatency);
  RouteRandomly := cfg.(RouteRandomly);
  MaxRetries := cfg.(MaxRetries);
  MinRetryBackoff := cfg.(MinRetryBackoff);
  MaxRetryBackoff := cfg.(MaxRetryBackoff);
  DialTimeout := cfg.(DialTimeout); ReadTimeout := cfg.(ReadTimeout);
  WriteTimeout := cfg.(WriteTimeout);
  ContextTimeoutEnabled := cfg.(ContextTimeoutEnabled);
  PoolFIFO := cfg.(PoolFIFO); PoolSize := cfg.(PoolSize);
  PoolTimeout := cfg.(PoolTimeout);
  MinIdleConns := cfg.(MinIdleConns); MaxIdleConns := cfg.(MaxIdleConns);
  MaxActiveConns := cfg.(MaxActiveConns);
  ConnMaxIdleTime := cfg.(ConnMaxIdleTime);
  ConnMaxLifetime := cfg.(ConnMaxLifetime);
  DisableIndentity := cfg.(DisableIndentity);
  UnstableResp3 := cfg.(UnstableResp3)
|}.

(** ** Errors *)

(** Go [error] values.  The sentinels are distinct values, compared by
    identity; a [nil] error is [None] of [option error]. *)
Inductive error : Type :=
| RedisNil                              (* rdb.Nil, the missing-value sentinel *)
| KeyNotFound                           (* errors.New("key not found") *)
| InvalidFieldType                      (* errors.New("invalid field type") *)
| BackendError (msg : string)           (* any other error value *)
| Wrap (msg : string) (inner : error).  (* an error that unwraps to [inner] *)

Definition ErrKeyNotFound : error := KeyNotFound.
Definition ErrInvalidFieldType : error := InvalidFieldType.

Module errors.

(** [err == target] on error values. *)
Fixpoint eqb (a b : error) : bool :=
  match a, b with
  | RedisNil, RedisNil => true
  | KeyNotFound, KeyNotFound => true
  | InvalidFieldType, InvalidFieldType => true
  | BackendError m, BackendError n => String.eqb m n
  | Wrap m a', Wrap n b' => String.eqb m n && eqb a' b'
  | _, _ => false
  end.

(** [errors.Is(err, target)]: [err] or an error in its unwrap chain is
    [target]. *)
Fixpoint Is (err target : error) : bool :=
  eqb err target
  || match err with
     | Wrap _ inner => Is inner target
     | _ => false
     end.

End errors.

(** ** package reflect *)

Module reflect.

Inductive Kind : Type :=
| Invalid | Bool | Int | Int8 | Int16 | Int32 | Int64
| Uint | Uint8 | Uint16 | Uint32 | Uint64 | Uintptr
| Float32 | Float64 | Complex64 | Complex128
| Array | Chan | Func | Interface | Map | Pointer | Slice | String | Struct
| UnsafePointer.

(** The kinds of numbers. *)
Inductive NumKind : Type :=
| NInt | NInt8 | NInt16 | NInt32 | NInt64
| NUint | NUint8 | NUint16 | NUint32 | NUint64 | NUintptr
| NFloat32 | NFloat64 | NComplex64 | NComplex128.

Definition kindOfNum (k : NumKind) : Kind :=
  match k with
  | NInt => Int | NInt8 => Int8 | NInt16 => Int16 | NInt32 => Int32
  | NInt64 => Int64
  | NUint => Uint | NUint8 => Uint8 | NUint16 => Uint16 | NUint32 => Uint32
  | NUint64 => Uint64 | NUintptr => Uintptr
  | NFloat32 => Float32 | NFloat64 => Float64
  | NComplex64 => Complex64 | NComplex128 => Complex128
  end.

(** A struct tag, as the [key:"value"] pairs it holds, in order. *)
Definition StructTag : Type := list (string * string).

(** [tag.Lookup(key)]: the value of the first pair under [key], and whether
    there is one. *)
Fixpoint Lookup (tag : StructTag) (key : string) : string * bool :=
  match tag with
  | [] => ("", false)
  | (k, v) :: tag' => if String.eqb k key then (v, true) else Lookup tag' key
  end.

(** [reflect.StructField]; [PkgPath] is empty exactly for exported fields. *)
Record StructField : Type := {
  Name : string;
  PkgPath : string;
  Tag : StructTag
}.

Definition IsExported (f : StructField) : bool := String.eqb f.(PkgPath) "".

End reflect.

(** Go values, as far as their runtime shape goes.  A number is kept as its
    kind and bit pattern, a reference as an address or identifier, a struct
    as its fields with their values in declaration order.  [VInterface] is a
    struct field (or element) of interface type with its dynamic value. *)
Inductive GoValue : Type :=
| VNil
| VBool (b : bool)
| VNumber (k : reflect.NumKind) (bits : Z)
| VString (s : string)
| VPointer (addr : Z)
| VUnsafePointer (addr : Z)
| VArray (elems : list GoValue)
| VSlice (elems : list GoValue)
| VMap (entries : list (GoValue * GoValue))
| VStruct (fields : list (reflect.StructField * GoValue))
| VFunc (id : Z)
| VChan (id : Z)
| VInterface (dyn : GoValue).

(** What a value of static type [any] holds: converting an interface value
    to [any] keeps its dynamic value only. *)
Fixpoint toAny (x : GoValue) : GoValue :=
  match x with
  | VInterface dyn => toAny dyn
  | _ => x
  end.

(** The result of a Go call that may panic. *)
Inductive Outcome (A : Type) : Type :=
| Returned (a : A)
| Panicked (msg : string).

Arguments Returned {A} a.
Arguments Panicked {A} msg.

Module Reflection.

(** [reflect.Value]: the value looked at, and whether it was reached
    through an unexported struct field (the read-only flag).  [ValueOf(nil)]
    is the zero [Value], here the one looking at [VNil]. *)
Record Value : Type := {
  target : GoValue;
  flagRO : bool
}.

(** [reflect.ValueOf(i)]. *)
Definition ValueOf (i : GoValue) : Value :=
  {| target := toAny i; flagRO := false |}.

(** [v.Kind()]. *)
Definition Kind (v : Value) : reflect.Kind :=
  match v.(target) with
  | VNil => reflect.Invalid
  | VBool _ => reflect.Bool
  | VNumber k _ => reflect.kindOfNum k
  | VString _ => reflect.String
  | VPointer _ => reflect.Pointer
  | VUnsafePointer _ => reflect.UnsafePointer
  | VArray _ => reflect.Array
  | VSlice _ => reflect.Slice
  | VMap _ => reflect.Map
  | VStruct _ => reflect.Struct
  | VFunc _ => reflect.Func
  | VChan _ => reflect.Chan
  | VInterface _ => reflect.Interface
  end.

(** [v.Field(i)]: panics unless [v] is a struct with a field [i]. *)
Definition Field (v : Value) (i : nat) : Outcome Value :=
  match v.(target) with
  | VStruct fields =>
      match nth_error fields i with
      | Some (f, x) =>
          Returned {| target := x;
                      flagRO := v.(flagRO) || negb (reflect.IsExported f) |}
      | None => Panicked "reflect: Field index out of range"
      end
  | _ => Panicked "reflect: call of reflect.Value.Field on non-struct Value"
  end.

(** [v.Interface()]: panics on the zero Value and on a value reached
    through an unexported field; an interface-typed value gives its dynamic
    value. *)
Definition Interface (v : Value) : Outcome GoValue :=
  match v.(target) with
  | VNil => Panicked "reflect: call of reflect.Value.Interface on zero Value"
  | x =>
      if v.(flagRO)
      then Panicked "reflect.Value.Interface: cannot return value obtained from unexported field or method"
      else Returned (toAny x)
  end.

(** [reflect.Type]: here the kind and, for a struct type, its fields. *)
Record Type_ : Type := {
  typeKind : reflect.Kind;
  typeFields : list reflect.StructField
}.

(** [reflect.TypeOf(i)]: [nil] for the nil interface value. *)
Definition TypeOf (i : GoValue) : option Type_ :=
  match toAny i with
  | VNil => None
  | VStruct fields =>
      Some {| typeKind := reflect.Struct; typeFields := map fst fields |}
  | x => Some {| typeKind := Kind (ValueOf x); typeFields := [] |}
  end.

(** [t.NumField()]: panics on a nil [Type] and on a type that is not a
    struct. *)
Definition NumField (t : option Type_) : Outcome nat :=
  match t with
  | None => Panicked "runtime error: invalid memory address or nil pointer dereference"
  | Some ty =>
      match ty.(typeKind) with
      | reflect.Struct => Returned (List.length ty.(typeFields))
      | _ => Panicked "reflect: NumField of non-struct type"
      end
  end.

(** [t.Field(i)] on a type: panics unless [t] is a struct type with a
    field [i]. *)
Definition TypeField (t : option Type_) (i : nat) : Outcome reflect.StructField :=
  match t with
  | None => Panicked "runtime error: invalid memory address or nil pointer dereference"
  | Some ty =>
      match ty.(typeKind) with
      | reflect.Struct =>
          match nth_error ty.(typeFields) i with
          | Some f => Returned f
          | None => Panicked "reflect: Field index out of bounds"
          end
      | _ => Panicked "reflect: Field of non-struct type"
      end
  end.

End Reflection.

(** ** The store backend: go-redis, as far as the client uses it *)

Module rdb.

(** [rdb.Nil]. *)
Definition Nil : error := RedisNil.

(** [rdb.Options]: the single-node connection policy.  It has no routing
    flags and no redirect budget. *)
Module Options.
Record t : Type := {
  Network : string;
  Addr : string;
  ClientName : string;
  Protocol : Z;
  Username : string;
  Password : string;
  DB : Z;
  MaxRetries : Z;
  MinRetryBackoff : Z;
  MaxRetryBackoff : Z;
  DialTimeout : Z;
  ReadTimeout : Z;
  WriteTimeout : Z;
  ContextTimeoutEnabled : bool;
  PoolFIFO : bool;
  PoolSize : Z;
  PoolTimeout : Z;
  MinIdleConns : Z;
  MaxIdleConns : Z;
  MaxActiveConns : Z;
  ConnMaxIdleTime : Z;
  ConnMaxLifetime : Z;
  TLSConfig : option Z;
  Limiter : option Z;
  DisableIndentity : bool;
  UnstableResp3 : bool
}.
End Options.

(** [rdb.ClusterOptions]: the multi-node connection policy. *)
Module ClusterOptions.
Record t : Type := {
  Addrs : list string;
  ClientName : string;
  MaxRedirects : Z;
  ReadOnly : bool;
  RouteByLatency : bool;
  RouteRandomly : bool;
  Protocol : Z;
  Username : string;
  Password : string;
  MaxRetries : Z;
  MinRetryBackoff : Z;
  MaxRetryBackoff : Z;
  DialTimeout : Z;
  ReadTimeout : Z;
  WriteTimeout : Z;
  ContextTimeoutEnabled : bool;
  PoolFIFO : bool;
  PoolSize : Z;
  PoolTimeout : Z;
  MinIdleConns : Z;
  MaxIdleConns : Z;
  MaxActiveConns : Z;
  ConnMaxIdleTime : Z;
  ConnMaxLifetime : Z;
  TLSConfig : option Z;
  DisableIndentity : bool
}.
End ClusterOptions.

(** A command queued on a pipeline. *)
Inductive Cmd : Type :=
| CmdHSet (key field : string) (value : GoValue)
| CmdExpire (key : string) (ttl : Z)
| CmdDel (keys : list string).

(** [rdb.Cmder]: a sub-result of an executed batch; [Err] is its [Err()]. *)
Record Cmder : Type := {
  Args : Cmd;
  Err : option error
}.

(** [*rdb.StringCmd], the reply to GET or HGET, as what its methods
    return: [Scan(dst)] gives the value stored in [dst] or an error, the
    typed readers give a value and an error. *)
Record StringCmd : Type := {
  Scan : GoValue + error;
  Result : string * option error;
  Bool : bool * option error;
  Bytes : list ascii * option error;
  Float64 : Z * option error;
  Int : Z * option error;
  Int64 : Z * option error;
  Uint64 : Z * option error
}.

(** [*rdb.MapStringStringCmd], the reply to HGETALL. *)
Record MapStringStringCmd : Type := {
  MapErr : option error;
  MapVal : list (string * string);
  MapScan : GoValue + error
}.

(** [rdb.UniversalClient]: what the connection answers to each call the
    client makes.  [Exec] and [Pipelined] answer a batch with its
    sub-results and a batch-level error. *)
Record UniversalClient : Type := {
  Ping : option error;
  Get : string -> StringCmd;
  HGet : string -> string -> StringCmd;
  HGetAll : string -> MapStringStringCmd;
  Exec : list Cmd -> list Cmder * option error;
  Pipelined : list Cmd -> list Cmder * option error;
  Close : option error
}.

End rdb.

(** ** package redisotel *)

Module redisotel.

(** The option fragments of redisotel the client can collect. *)
Inductive Option_ : Type :=
| WithMeterProvider (mp : Z)
| WithTracerProvider (provider : Z)
| WithDBStatement (on : bool)
| WithDBSystem (system : string)
| WithAttributes (attrs : list (string * string)).

Definition MetricsOption : Type := Option_.
Definition TracingOption : Type := Option_.

End redisotel.

(** ** Calls to the collaborators, and the world they are made in *)

(** A call the package makes on go-redis or redisotel. *)
Inductive Call : Type :=
| CallNewClient (opts : rdb.Options.t)
| CallNewClusterClient (opts : rdb.ClusterOptions.t)
| CallInstrumentTracing (opts : list redisotel.TracingOption)
| CallInstrumentMetrics (opts : list redisotel.MetricsOption)
| CallPing
| CallGet (key : string)
| CallHGetAll (key : string)
| CallTxPipeline
| CallPipelined
| CallPipeHSet (key field : string) (value : GoValue)
| CallPipeExpire (key : string) (ttl : Z)
| CallPipeDel (keys : list string)
| CallExec (cmds : list rdb.Cmd).

(** The world: how many unique tokens were drawn so far, and the calls
    made so far, oldest first. *)
Record World : Type := {
  drawn : nat;
  calls : list Call
}.

Definition newWorld : World := {| drawn := O; calls := [] |}.

(** A computation in the world that returns or panics. *)
Definition M (A : Type) : Type := World -> Outcome A * World.

Definition ret {A : Type} (a : A) : M A := fun w => (Returned a, w).

Definition bind {A B : Type} (m : M A) (k : A -> M B) : M B :=
  fun w =>
    match m w with
    | (Returned a, w') => k a w'
    | (Panicked msg, w') => (Panicked msg, w')
    end.

Definition panic {A : Type} (msg : string) : M A := fun w => (Panicked msg, w).

(** Lift a call of package reflect. *)
Definition lift {A : Type} (o : Outcome A) : M A := fun w => (o, w).

(** Record a call. *)
Definition call (c : Call) : M unit :=
  fun w => (Returned tt, {| drawn := w.(drawn); calls := w.(calls) ++ [c] |}).

Declare Scope go_scope.
Delimit Scope go_scope with go.
Notation "x <- m ;; k" := (bind m (fun x => k))
  (at level 61, m at next level, right associativity) : go_scope.
Notation "m ;; k" := (bind m (fun _ => k))
  (at level 61, right associativity) : go_scope.
Local Open Scope go_scope.

(** ** options.go: resolving the configuration *)

(** [parseClientConfig(cfg)]: the single-node policy.  Fields the struct
    literal leaves out keep their zero value.  ([newClient] calls it under
    the name [parseConfig].) *)
Definition parseClientConfig (cfg : Config) : rdb.Options.t :=
  let addrs := strings.Split cfg.(Addrs) "," in
  {| rdb.Options.Network := cfg.(Network);
     rdb.Options.Addr :=
       if 0 <? len_slice addrs then hd "" addrs else "";
     rdb.Options.ClientName := "";
     rdb.Options.Protocol :=
       if 0 <? cfg.(Protocol) then cfg.(Protocol) else 0;
     rdb.Options.Username := cfg.(Username);
     rdb.Options.Password := cfg.(Password);
     rdb.Options.DB := cfg.(DB);
     rdb.Options.MaxRetries := cfg.(MaxRetries);
     rdb.Options.MinRetryBackoff := cfg.(MinRetryBackoff);
     rdb.Options.MaxRetryBackoff := cfg.(MaxRetryBackoff);
     rdb.Options.DialTimeout := cfg.(DialTimeout);
     rdb.Options.ReadTimeout := cfg.(ReadTimeout);
     rdb.Options.WriteTimeout := cfg.(WriteTimeout);
     rdb.Options.ContextTimeoutEnabled := cfg.(ContextTimeoutEnabled);
     rdb.Options.PoolFIFO := cfg.(PoolFIFO);
     rdb.Options.PoolSize := cfg.(PoolSize);
     rdb.Options.PoolTimeout := cfg.(PoolTimeout);
     rdb.Options.MinIdleConns := cfg.(MinIdleConns);
     rdb.Options.MaxIdleConns := cfg.(MaxIdleConns);
     rdb.Options.MaxActiveConns := cfg.(MaxActiveConns);
     rdb.Options.ConnMaxIdleTime := cfg.(ConnMaxIdleTime);
     rdb.Options.ConnMaxLifetime := cfg.(ConnMaxLifetime);
     rdb.Options.TLSConfig := None;
     rdb.Options.Limiter := None;
     rdb.Options.DisableIndentity := cfg.(DisableIndentity);
     rdb.Options.UnstableResp3 := cfg.(UnstableResp3) |}.

(** [parseClusterConfig(cfg)]: the multi-node policy.  The redirect budget
    is [len(cfg.Addrs) + 1], [cfg.Addrs] being the address string. *)
Definition parseClusterConfig (cfg : Config) : rdb.ClusterOptions.t :=
  {| rdb.ClusterOptions.Addrs := strings.Split cfg.(Addrs) ",";
     rdb.ClusterOptions.ClientName := "";
     rdb.ClusterOptions.MaxRedirects :=
       if cfg.(MaxRedirects) =? 0 then int_add (len cfg.(Addrs)) 1 else 0;
     rdb.ClusterOptions.ReadOnly := cfg.(ReadOnly);
     rdb.ClusterOptions.RouteByLatency := cfg.(RouteByLatency);
     rdb.ClusterOptions.RouteRandomly := cfg.(RouteRandomly);
     rdb.ClusterOptions.Protocol :=
       if 0 <? cfg.(Protocol) then cfg.(Protocol) else 0;
     rdb.ClusterOptions.Username := cfg.(Username);
     rdb.ClusterOptions.Password := cfg.(Password);
     rdb.ClusterOptions.MaxRetries := cfg.(MaxRetries);
     rdb.ClusterOptions.MinRetryBackoff := cfg.(MinRetryBackoff);
     rdb.ClusterOptions.MaxRetryBackoff := cfg.(MaxRetryBackoff);
     rdb.ClusterOptions.DialTimeout := cfg.(DialTimeout);
     rdb.ClusterOptions.ReadTimeout := cfg.(ReadTimeout);
     rdb.ClusterOptions.WriteTimeout := cfg.(WriteTimeout);
     rdb.ClusterOptions.ContextTimeoutEnabled := cfg.(ContextTimeoutEnabled);
     rdb.ClusterOptions.PoolFIFO := cfg.(PoolFIFO);
     rdb.ClusterOptions.PoolSize := cfg.(PoolSize);
     rdb.ClusterOptions.PoolTimeout := cfg.(PoolTimeout);
     rdb.ClusterOptions.MinIdleConns := cfg.(MinIdleConns);
     rdb.ClusterOptions.MaxIdleConns := cfg.(MaxIdleConns);
     rdb.ClusterOptions.MaxActiveConns := cfg.(MaxActiveConns);
     rdb.ClusterOptions.ConnMaxIdleTime := cfg.(ConnMaxIdleTime);
     rdb.ClusterOptions.ConnMaxLifetime := cfg.(ConnMaxLifetime);
     rdb.ClusterOptions.TLSConfig := None;
     rdb.ClusterOptions.DisableIndentity := cfg.(DisableIndentity) |}.

(** The number of addresses of a comma-separated address field. *)
Definition numberOfAddresses (addrs : string) : Z :=
  len_slice (strings.Split addrs ",").

(** ** client.go: the client *)

(** [type MarshallerFunc func(interface{}) ([]byte, error)]. *)
Definition MarshallerFunc : Type := GoValue -> list ascii * option error.

(** [type Client struct].  [conn] is [nil] until construction opens the
    connection; the logger is kept as the attributes attached to it. *)
Record Client : Type := {
  id : string;
  suffix : string;
  conn : option rdb.UniversalClient;
  cfg : Config;
  tls : option Z;
  logger : list (string * string);
  limiter : option Z;
  marshaller : option MarshallerFunc;
  meterOptions : list redisotel.MetricsOption;
  traceOptions : list redisotel.TracingOption
}.

(** [c.id = v]. *)
Definition set_id (v : string) (c : Client) : Client :=
  {| id := v; suffix := c.(suffix); conn := c.(conn); cfg := c.(cfg);
     tls := c.(tls); logger := c.(logger); limiter := c.(limiter);
     marshaller := c.(marshaller); meterOptions := c.(meterOptions);
     traceOptions := c.(traceOptions) |}.

(** [c.suffix = v]. *)
Definition set_suffix (v : string) (c : Client) : Client :=
  {| id := c.(id); suffix := v; conn := c.(conn); cfg := c.(cfg);
     tls := c.(tls); logger := c.(logger); limiter := c.(limiter);
     marshaller := c.(marshaller); meterOptions := c.(meterOptions);
     traceOptions := c.(traceOptions) |}.

(** [c.conn = k]. *)
Definition set_conn (k : rdb.UniversalClient) (c : Client) : Client :=
  {| id := c.(id); suffix := c.(suffix); conn := Some k; cfg := c.(cfg);
     tls := c.(tls); logger := c.(logger); limiter := c.(limiter);
     marshaller := c.(marshaller); meterOptions := c.(meterOptions);
     traceOptions := c.(traceOptions) |}.

(** [c.cfg = v]. *)
Definition set_cfg (v : Config) (c : Client) : Client :=
  {| id := c.(id); suffix := c.(suffix); conn := c.(conn); cfg := v;
     tls := c.(tls); logger := c.(logger); limiter := c.(limiter);
     marshaller := c.(marshaller); meterOptions := c.(meterOptions);
     traceOptions := c.(traceOptions) |}.

(** [c.tls = v]. *)
Definition set_tls (v : option Z) (c : Client) : Client :=
  {| id := c.(id); suffix := c.(suffix); conn := c.(conn); cfg := c.(cfg);
     tls := v; logger := c.(logger); limiter := c.(limiter);
     marshaller := c.(marshaller); meterOptions := c.(meterOptions);
     traceOptions := c.(traceOptions) |}.

(** [c.logger = v]. *)
Definition set_logger (v : list (string * string)) (c : Client) : Client :=
  {| id := c.(id); suffix := c.(suffix); conn := c.(conn); cfg := c.(cfg);
     tls := c.(tls); logger := v; limiter := c.(limiter);
     marshaller := c.(marshaller); meterOptions := c.(meterOptions);
     traceOptions := c.(traceOptions) |}.

(** [c.limiter = v]. *)
Definition set_limiter (v : option Z) (c : Client) : Client :=
  {| id := c.(id); suffix := c.(suffix); conn := c.(conn); cfg := c.(cfg);
     tls := c.(tls); logger := c.(logger); limiter := v;
     marshaller := c.(marshaller); meterOptions := c.(meterOptions);
     traceOptions := c.(traceOptions) |}.

(** [c.marshaller = v]. *)
Definition set_marshaller (v : option MarshallerFunc) (c : Client) : Client :=
  {| id := c.(id); suffix := c.(suffix); conn := c.(conn); cfg := c.(cfg);
     tls := c.(tls); logger := c.(logger); limiter := c.(limiter);
     marshaller := v; meterOptions := c.(meterOptions);
     traceOptions := c.(traceOptions) |}.

(** [c.addMeterOption(opt)]. *)
Definition addMeterOption (opt : redisotel.MetricsOption) (c : Client)
  : Client :=
  {| id := c.(id); suffix := c.(suffix); conn := c.(conn); cfg := c.(cfg);
     tls := c.(tls); logger := c.(logger); limiter := c.(limiter);
     marshaller := c.(marshaller);
     meterOptions := c.(meterOptions) ++ [opt];
     traceOptions := c.(traceOptions) |}.

(** [c.addTraceOption(opt)]. *)
Definition addTraceOption (opt : redisotel.TracingOption) (c : Client)
  : Client :=
  {| id := c.(id); suffix := c.(suffix); conn := c.(conn); cfg := c.(cfg);
     tls := c.(tls); logger := c.(logger); limiter := c.(limiter);
     marshaller := c.(marshaller); meterOptions := c.(meterOptions);
     traceOptions := c.(traceOptions) ++ [opt] |}.

(** The connection behind [c.conn]; a method call on the [nil] interface
    panics. *)
Definition theConn (c : Client) : M rdb.UniversalClient :=
  match c.(conn) with
  | Some k => ret k
  | None => panic "runtime error: invalid memory address or nil pointer dereference"
  end.

(** The case list of the [switch] on the kind in [HSet] and [HSetObject]:
    the kinds that are refused. *)
Definition invalidFieldKind (k : reflect.Kind) : bool :=
  match k with
  | reflect.Invalid | reflect.Pointer | reflect.Array | reflect.Map
  | reflect.Struct | reflect.Slice | reflect.Func | reflect.Chan
  | reflect.UnsafePointer => true
  | _ => false
  end.

(** The loop over the sub-results that ends [HSet], [HSetObject] and
    [MassDelete]: [err] is assigned each sub-result's error in turn and the
    function returns at the first one that is not [nil]; past the loop it
    returns [err] as it stands. *)
Fixpoint firstErr (err : option error) (cmder : list rdb.Cmder)
  : option error :=
  match cmder with
  | [] => err
  | cmd :: rest =>
      match cmd.(rdb.Err) with
      | Some e => Some e
      | None => firstErr None rest
      end
  end.

(** [pipe.Exec(ctx)] on a transactional pipeline holding [queue], and what
    the callers do with its results. *)
Definition execAndInspect (k : rdb.UniversalClient) (queue : list rdb.Cmd)
  : M (option error) :=
  call (CallExec queue) ;;
  let '(cmder, err) := k.(rdb.Exec) queue in
  match err with
  | Some e => ret (Some e)
  | None => ret (firstErr None cmder)
  end.

(** The body of the [for] loop of [HSetObject] over the field indices
    [indices]: [inl e] is the early [return e], [inr queue] the commands
    queued on the pipeline when the loop ends. *)
Fixpoint hsetObjectLoop (t : option Reflection.Type_) (v : Reflection.Value)
  (key : string) (indices : list nat) (queue : list rdb.Cmd)
  : M (error + list rdb.Cmd) :=
  match indices with
  | [] => ret (inr queue)
  | i :: rest =>
      f <- lift (Reflection.TypeField t i) ;;
      let '(tagValue, ok) := reflect.Lookup f.(reflect.Tag) "redis" in
      if ok && negb (String.eqb tagValue "-")
      then
        fv <- lift (Reflection.Field v i) ;;
        if invalidFieldKind (Reflection.Kind fv)
        then ret (inl ErrInvalidFieldType)
        else
          fv' <- lift (Reflection.Field v i) ;;
          x <- lift (Reflection.Interface fv') ;;
          call (CallPipeHSet key tagValue x) ;;
          hsetObjectLoop t v key rest (queue ++ [rdb.CmdHSet key tagValue x])
      else hsetObjectLoop t v key rest queue
  end.

Module Client.

(** [HGetAll(ctx, key, dst)]: the value stored in [dst], if any, and the
    error. *)
Definition HGetAll (c : Client) (key : string)
  : M (option GoValue * option error) :=
  k <- theConn c ;;
  call (CallHGetAll key) ;;
  let res := k.(rdb.HGetAll) key in
  match res.(rdb.MapErr) with
  | Some err => ret (None, Some err)
  | None =>
      if len_slice res.(rdb.MapVal) =? 0
      then ret (None, Some ErrKeyNotFound)
      else
        match res.(rdb.MapScan) with
        | inl v => ret (Some v, None)
        | inr err => ret (None, Some err)
        end
  end.

(** [HSet(ctx, key, field, value, ttl)]. *)
Definition HSet (c : Client) (key field : string) (value : GoValue) (ttl : Z)
  : M (option error) :=
  k <- theConn c ;;
  call CallTxPipeline ;;
  let v := Reflection.ValueOf value in
  if invalidFieldKind (Reflection.Kind v)
  then ret (Some ErrInvalidFieldType)
  else
    call (CallPipeHSet key field value) ;;
    call (CallPipeExpire key ttl) ;;
    execAndInspect k [rdb.CmdHSet key field value; rdb.CmdExpire key ttl].

(** [HSetObject(ctx, key, data, ttl)].  [t.NumField()] is the same at every
    turn of the loop, so it is read once. *)
Definition HSetObject (c : Client) (key : string) (data : GoValue) (ttl : Z)
  : M (option error) :=
  k <- theConn c ;;
  call CallTxPipeline ;;
  let t := Reflection.TypeOf data in
  let v := Reflection.ValueOf data in
  n <- lift (Reflection.NumField t) ;;
  r <- hsetObjectLoop t v key (seq 0 n) [] ;;
  match r with
  | inl e => ret (Some e)
  | inr queue =>
      call (CallPipeExpire key ttl) ;;
      execAndInspect k (queue ++ [rdb.CmdExpire key ttl])
  end.

(** [Get(ctx, key, dst)]: the value stored in [dst], if any, and the
    error. *)
Definition Get (c : Client) (key : string)
  : M (option GoValue * option error) :=
  k <- theConn c ;;
  call (CallGet key) ;;
  match (k.(rdb.Get) key).(rdb.Scan) with
  | inr err =>
      if errors.Is err rdb.Nil
      then ret (None, Some ErrKeyNotFound)
      else ret (None, Some err)
  | inl v => ret (Some v, None)
  end.

(** [Bool(ctx, key)]. *)
Definition Bool (c : Client) (key : string) : M (bool * bool * option error) :=
  k <- theConn c ;;
  call (CallGet key) ;;
  let res := k.(rdb.Get) key in
  let '(val, err) := res.(rdb.Bool) in
  match err with
  | Some e =>
      if errors.Is e rdb.Nil
      then ret (val, false, None)
      else ret (val, false, Some e)
  | None => ret (val, true, None)
  end.

(** [Bytes(ctx, key)]. *)
Definition Bytes (c : Client) (key : string)
  : M (list ascii * bool * option error) :=
  k <- theConn c ;;
  call (CallGet key) ;;
  let res := k.(rdb.Get) key in
  let '(val, err) := res.(rdb.Bytes) in
  match err with
  | Some e =>
      if errors.Is e rdb.Nil
      then ret (val, false, None)
      else ret (val, false, Some e)
  | None => ret (val, true, None)
  end.

(** [Float64(ctx, key)]; the value is kept as its bit pattern. *)
Definition Float64 (c : Client) (key : string) : M (Z * bool * option error) :=
  k <- theConn c ;;
  call (CallGet key) ;;
  let res := k.(rdb.Get) key in
  let '(val, err) := res.(rdb.Float64) in
  match err with
  | Some e =>
      if errors.Is e rdb.Nil
      then ret (val, false, None)
      else ret (val, false, Some e)
  | None => ret (val, true, None)
  end.

(** [Int(ctx, key)]. *)
Definition Int (c : Client) (key : string) : M (Z * bool * option error) :=
  k <- theConn c ;;
  call (CallGet key) ;;
  let res := k.(rdb.Get) key in
  let '(val, err) := res.(rdb.Int) in
  match err with
  | Some e =>
      if errors.Is e rdb.Nil
      then ret (val, false, None)
      else ret (val, false, Some e)
  | None => ret (val, true, None)
  end.

(** [Int64(ctx, key)]. *)
Definition Int64 (c : Client) (key : string) : M (Z * bool * option error) :=
  k <- theConn c ;;
  call (CallGet key) ;;
  let res := k.(rdb.Get) key in
  let '(val, err) := res.(rdb.Int64) in
  match err with
  | Some e =>
      if errors.Is e rdb.Nil
      then ret (val, false, None)
      else ret (val, false, Some e)
  | None => ret (val, true, None)
  end.

(** [Uint64(ctx, key)]. *)
Definition Uint64 (c : Client) (key : string) : M (Z * bool * option error) :=
  k <- theConn c ;;
  call (CallGet key) ;;
  let res := k.(rdb.Get) key in
  let '(val, err) := res.(rdb.Uint64) in
  match err with
  | Some e =>
      if errors.Is e rdb.Nil
      then ret (val, false, None)
      else ret (val, false, Some e)
  | None => ret (val, true, None)
  end.

(** [String(ctx, key)]. *)
Definition String (c : Client) (key : string)
  : M (string * bool * option error) :=
  k <- theConn c ;;
  call (CallGet key) ;;
  let res := k.(rdb.Get) key in
  let '(val, err) := res.(rdb.Result) in
  match err with
  | Some e =>
      if errors.Is e rdb.Nil
      then ret (val, false, None)
      else ret (val, false, Some e)
  | None => ret (val, true, None)
  end.

(** [MassDelete(ctx, keys)]: one pipeline holding a single DEL of all the
    keys; the error of [Pipelined] is the [err] the loop starts from. *)
Definition MassDelete (c : Client) (keys : list string) : M (option error) :=
  k <- theConn c ;;
  call CallPipelined ;;
  call (CallPipeDel keys) ;;
  call (CallExec [rdb.CmdDel keys]) ;;
  let '(cmders, err) := k.(rdb.Pipelined) [rdb.CmdDel keys] in
  ret (firstErr err cmders).

End Client.

(** ** Identity, options and construction *)

Section Construction.

(** Modelled from the spec: [GenerateUUID] is not among the sources; it
    yields "a freshly generated globally-unique token (e.g., UUID-v4)".
    [uuid n] is the token of the [n]-th draw. *)
Variable uuid : nat -> string.

(** [rdb.NewClient] and [rdb.NewClusterClient]: the connection a policy
    opens. *)
Variable rdb_NewClient : rdb.Options.t -> rdb.UniversalClient.
Variable rdb_NewClusterClient : rdb.ClusterOptions.t -> rdb.UniversalClient.

(** [redisotel.InstrumentTracing] and [redisotel.InstrumentMetrics]: the
    error they answer with. *)
Variable redisotel_InstrumentTracing :
  option rdb.UniversalClient -> list redisotel.TracingOption -> option error.
Variable redisotel_InstrumentMetrics :
  option rdb.UniversalClient -> list redisotel.MetricsOption -> option error.

(** [json.Marshal]. *)
Variable json_Marshal : MarshallerFunc.

(** [GenerateUUID()]: draws the next token. *)
Definition GenerateUUID : M string :=
  fun w => (Returned (uuid w.(drawn)),
            {| drawn := S w.(drawn); calls := w.(calls) |}).

(** [c.getID()]. *)
Definition getID (c : Client) : M string :=
  if String.eqb c.(id) "" then GenerateUUID else ret c.(id).

(** [type Option interface { apply(p *Client) }]: the client after
    [apply]. *)
Definition Option_ : Type := Client -> M Client.

(** [WithLogger(l)]. *)
Definition WithLogger (l : option (list (string * string))) : Option_ :=
  fun c =>
    match l with
    | Some lg => ret (set_logger lg c)
    | None => ret c
    end.

(** [WithConfig(config)]. *)
Definition WithConfig (config : option Config) : Option_ :=
  fun c =>
    match config with
    | Some cf => ret (set_cfg cf c)
    | None => ret c
    end.

(** [WithClientID(id)]; [fmt.Sprintf("%s-%s", id, GenerateUUID())]. *)
Definition WithClientID (id : string) : Option_ :=
  fun c =>
    if negb (String.eqb id "")
    then
      token <- GenerateUUID ;;
      ret (set_id (id ++ "-" ++ token) c)
    else ret c.

(** [WithIdentitySuffix(suffix)]. *)
Definition WithIdentitySuffix (suffix : string) : Option_ :=
  fun c =>
    if negb (String.eqb suffix "") then ret (set_suffix suffix c) else ret c.

(** [WithMarshaller(fn)]. *)
Definition WithMarshaller (fn : option MarshallerFunc) : Option_ :=
  fun c =>
    match fn with
    | Some f => ret (set_marshaller (Some f) c)
    | None => ret c
    end.

(** [WithTLS(cfg)]. *)
Definition WithTLS (cfg : option Z) : Option_ :=
  fun c =>
    match cfg with
    | Some t => ret (set_tls (Some t) c)
    | None => ret c
    end.

(** [WithLimiter(limiter)]. *)
Definition WithLimiter (limiter : option Z) : Option_ :=
  fun c =>
    match limiter with
    | Some l => ret (set_limiter (Some l) c)
    | None => ret c
    end.

(** [WithMeterProvider(mp)]. *)
Definition WithMeterProvider (mp : option Z) : Option_ :=
  fun c =>
    match mp with
    | Some p => ret (addMeterOption (redisotel.WithMeterProvider p) c)
    | None => ret c
    end.

(** [WithMetricsNamespace] assigns [c.namespace], a field that [Client] in
    client.go does not declare; it is left out. *)

(** [WithTraceProvider(provider)]. *)
Definition WithTraceProvider (provider : option Z) : Option_ :=
  fun c =>
    match provider with
    | Some p => ret (addTraceOption (redisotel.WithTracerProvider p) c)
    | None => ret c
    end.

(** [WithDBStatement(on)]. *)
Definition WithDBStatement (on : bool) : Option_ :=
  fun c => ret (addTraceOption (redisotel.WithDBStatement on) c).

(** [WithDBSystem(system)]. *)
Definition WithDBSystem (system : string) : Option_ :=
  fun c =>
    if negb (String.eqb system "")
    then ret (addMeterOption (redisotel.WithDBSystem system)
                (addTraceOption (redisotel.WithDBSystem system) c))
    else ret c.

(** [WithAttributes(attrs...)]. *)
Definition WithAttributes (attrs : list (string * string)) : Option_ :=
  fun c =>
    ret (addMeterOption (redisotel.WithAttributes attrs)
           (addTraceOption (redisotel.WithAttributes attrs) c)).

(** [for _, opt := range opts { opt.apply(c) }]. *)
Fixpoint applyOptions (opts : list Option_) (c : Client) : M Client :=
  match opts with
  | [] => ret c
  | opt :: rest => c' <- opt c ;; applyOptions rest c'
  end.

(** [c.exposeInstrumenting()]. *)
Definition exposeInstrumenting (c : Client) : M (option error) :=
  call (CallInstrumentTracing c.(traceOptions)) ;;
  match redisotel_InstrumentTracing c.(conn) c.(traceOptions) with
  | Some err => ret (Some err)
  | None =>
      call (CallInstrumentMetrics c.(meterOptions)) ;;
      match redisotel_InstrumentMetrics c.(conn) c.(meterOptions) with
      | Some err => ret (Some err)
      | None => ret None
      end
  end.

(** [connOpts.TLSConfig], [connOpts.ClientName] and [connOpts.Limiter]
    assigned on a single-node policy. *)
Definition completeOptions (o : rdb.Options.t) (tlsConfig : option Z)
  (clientName : string) (lim : option Z) : rdb.Options.t :=
  {| rdb.Options.Network := o.(rdb.Options.Network);
     rdb.Options.Addr := o.(rdb.Options.Addr);
     rdb.Options.ClientName := clientName;
     rdb.Options.Protocol := o.(rdb.Options.Protocol);
     rdb.Options.Username := o.(rdb.Options.Username);
     rdb.Options.Password := o.(rdb.Options.Password);
     rdb.Options.DB := o.(rdb.Options.DB);
     rdb.Options.MaxRetries := o.(rdb.Options.MaxRetries);
     rdb.Options.MinRetryBackoff := o.(rdb.Options.MinRetryBackoff);
     rdb.Options.MaxRetryBackoff := o.(rdb.Options.MaxRetryBackoff);
     rdb.Options.DialTimeout := o.(rdb.Options.DialTimeout);
     rdb.Options.ReadTimeout := o.(rdb.Options.ReadTimeout);
     rdb.Options.WriteTimeout := o.(rdb.Options.WriteTimeout);
     rdb.Options.ContextTimeoutEnabled := o.(rdb.Options.ContextTimeoutEnabled);
     rdb.Options.PoolFIFO := o.(rdb.Options.PoolFIFO);
     rdb.Options.PoolSize := o.(rdb.Options.PoolSize);
     rdb.Options.PoolTimeout := o.(rdb.Options.PoolTimeout);
     rdb.Options.MinIdleConns := o.(rdb.Options.MinIdleConns);
     rdb.Options.MaxIdleConns := o.(rdb.Options.MaxIdleConns);
     rdb.Options.MaxActiveConns := o.(rdb.Options.MaxActiveConns);
     rdb.Options.ConnMaxIdleTime := o.(rdb.Options.ConnMaxIdleTime);
     rdb.Options.ConnMaxLifetime := o.(rdb.Options.ConnMaxLifetime);
     rdb.Options.TLSConfig := tlsConfig;
     rdb.Options.Limiter := lim;
     rdb.Options.DisableIndentity := o.(rdb.Options.DisableIndentity);
     rdb.Options.UnstableResp3 := o.(rdb.Options.UnstableResp3) |}.

(** [connOpts.TLSConfig] and [connOpts.ClientName] assigned on a
    multi-node policy. *)
Definition completeClusterOptions (o : rdb.ClusterOptions.t)
  (tlsConfig : option Z) (clientName : string) : rdb.ClusterOptions.t :=
  {| rdb.ClusterOptions.Addrs := o.(rdb.ClusterOptions.Addrs);
     rdb.ClusterOptions.ClientName := clientName;
     rdb.ClusterOptions.MaxRedirects := o.(rdb.ClusterOptions.MaxRedirects);
     rdb.ClusterOptions.ReadOnly := o.(rdb.ClusterOptions.ReadOnly);
     rdb.ClusterOptions.RouteByLatency := o.(rdb.ClusterOptions.RouteByLatency);
     rdb.ClusterOptions.RouteRandomly := o.(rdb.ClusterOptions.RouteRandomly);
     rdb.ClusterOptions.Protocol := o.(rdb.ClusterOptions.Protocol);
     rdb.ClusterOptions.Username := o.(rdb.ClusterOptions.Username);
     rdb.ClusterOptions.Password := o.(rdb.ClusterOptions.Password);
     rdb.ClusterOptions.MaxRetries := o.(rdb.ClusterOptions.MaxRetries);
     rdb.ClusterOptions.MinRetryBackoff := o.(rdb.ClusterOptions.MinRetryBackoff);
     rdb.ClusterOptions.MaxRetryBackoff := o.(rdb.ClusterOptions.MaxRetryBackoff);
     rdb.ClusterOptions.DialTimeout := o.(rdb.ClusterOptions.DialTimeout);
     rdb.ClusterOptions.ReadTimeout := o.(rdb.ClusterOptions.ReadTimeout);
     rdb.ClusterOptions.WriteTimeout := o.(rdb.ClusterOptions.WriteTimeout);
     rdb.ClusterOptions.ContextTimeoutEnabled :=
       o.(rdb.ClusterOptions.ContextTimeoutEnabled);
     rdb.ClusterOptions.PoolFIFO := o.(rdb.ClusterOptions.PoolFIFO);
     rdb.ClusterOptions.PoolSize := o.(rdb.ClusterOptions.PoolSize);
     rdb.ClusterOptions.PoolTimeout := o.(rdb.ClusterOptions.PoolTimeout);
     rdb.ClusterOptions.MinIdleConns := o.(rdb.ClusterOptions.MinIdleConns);
     rdb.ClusterOptions.MaxIdleConns := o.(rdb.ClusterOptions.MaxIdleConns);
     rdb.ClusterOptions.MaxActiveConns := o.(rdb.ClusterOptions.MaxActiveConns);
     rdb.ClusterOptions.ConnMaxIdleTime := o.(rdb.ClusterOptions.ConnMaxIdleTime);
     rdb.ClusterOptions.ConnMaxLifetime := o.(rdb.ClusterOptions.ConnMaxLifetime);
     rdb.ClusterOptions.TLSConfig := tlsConfig;
     rdb.ClusterOptions.DisableIndentity :=
       o.(rdb.ClusterOptions.DisableIndentity) |}.

(** The client [newClient] starts from:
    [&Client{cfg: defaultConfig(), logger: slog.Default()}]. *)
Definition emptyClient : Client :=
  {| id := ""; suffix := ""; conn := None; cfg := defaultConfig;
     tls := None; logger := []; limiter := None; marshaller := None;
     meterOptions := []; traceOptions := [] |}.

(** [newClient(cluster, opts)]: the client, or [nil] and the error. *)
Definition newClient (cluster : bool) (opts : list Option_)
  : M (option Client * option error) :=
  c <- applyOptions opts emptyClient ;;
  let c := set_logger (c.(logger) ++ [("component", "redis")]) c in
  let c :=
    match c.(marshaller) with
    | None => set_marshaller (Some json_Marshal) c
    | Some _ => c
    end in
  c <- (if cluster
        then
          let connOpts := parseClusterConfig c.(cfg) in
          name <- getID c ;;
          let connOpts := completeClusterOptions connOpts c.(tls) name in
          call (CallNewClusterClient connOpts) ;;
          ret (set_conn (rdb_NewClusterClient connOpts) c)
        else
          let connOpts := parseClientConfig c.(cfg) in
          name <- getID c ;;
          let connOpts :=
            completeOptions connOpts c.(tls) name c.(limiter) in
          call (CallNewClient connOpts) ;;
          ret (set_conn (rdb_NewClient connOpts) c)) ;;
  err <- exposeInstrumenting c ;;
  match err with
  | Some e => ret (None, Some e)
  | None =>
      k <- theConn c ;;
      call CallPing ;;
      match k.(rdb.Ping) with
      | Some e => ret (None, Some e)
      | None => ret (Some c, None)
      end
  end.

(** [NewClient(opts...)]. *)
Definition NewClient (opts : list Option_) : M (option Client * option error) :=
  newClient false opts.

(** [NewClusterClient(opts...)]. *)
Definition NewClusterClient (opts : list Option_)
  : M (option Client * option error) :=
  newClient true opts.

End Construction.

(** ** Connections used in examples *)

(** A reply to GET under which every reader succeeds. *)
Definition okStringCmd (s : string) : rdb.StringCmd :=
  {| rdb.Scan := inl (VString s);
     rdb.Result := (s, None);
     rdb.Bool := (true, None);
     rdb.Bytes := (list_ascii_of_string s, None);
     rdb.Float64 := (0, None);
     rdb.Int := (0, None);
     rdb.Int64 := (0, None);
     rdb.Uint64 := (0, None) |}.

(** A reply to GET under which every reader fails with [e]. *)
Definition errStringCmd (e : error) : rdb.StringCmd :=
  {| rdb.Scan := inr e;
     rdb.Result := ("", Some e);
     rdb.Bool := (false, Some e);
     rdb.Bytes := ([], Some e);
     rdb.Float64 := (0, Some e);
     rdb.Int := (0, Some e);
     rdb.Int64 := (0, Some e);
     rdb.Uint64 := (0, Some e) |}.

(** A connection that answers every read with [reply], every hash read
    with [hash], a batch with [batch], and a ping with [ping]. *)
Definition doubleConn (reply : rdb.StringCmd) (hash : list (string * string))
  (batch : list rdb.Cmder * option error) (ping : option error)
  : rdb.UniversalClient :=
  {| rdb.Ping := ping;
     rdb.Get := fun _ => reply;
     rdb.HGet := fun _ _ => reply;
     rdb.HGetAll := fun _ =>
       {| rdb.MapErr := None; rdb.MapVal := hash; rdb.MapScan := inl VNil |};
     rdb.Exec := fun _ => batch;
     rdb.Pipelined := fun _ => batch;
     rdb.Close := None |}.

(** A connection on which everything succeeds and every key holds ["v"]. *)
Definition stubConn : rdb.UniversalClient :=
  doubleConn (okStringCmd "v") [("f", "v")] ([], None) None.

(** ** Notions used in the statements *)

(** The world after one more call. *)
Definition after (w : World) (cs : list Call) : World :=
  {| drawn := w.(drawn); calls := w.(calls) ++ cs |}.

(** What a typed reader answers, given what the reader of the reply
    returned: found and no error on success, not found and no error on the
    missing-value sentinel, not found and the error otherwise. *)
Definition typedAnswer {A : Type} (r : A * option error)
  : A * bool * option error :=
  match snd r with
  | None => (fst r, true, None)
  | Some e =>
      if errors.Is e rdb.Nil
      then (fst r, false, None)
      else (fst r, false, Some e)
  end.


(** The shapes named for refusal: pointer, composite (array, map, struct,
    slice), function and channel. *)
Definition refusedShapes : list reflect.Kind :=
  [reflect.Pointer; reflect.Array; reflect.Map; reflect.Struct;
   reflect.Slice; reflect.Func; reflect.Chan].

(** A field carries the tag [redis] and its value is not the exclusion
    marker ["-"]. *)
Definition tagged (f : reflect.StructField) : bool :=
  snd (reflect.Lookup f.(reflect.Tag) "redis")
  && negb (String.eqb (fst (reflect.Lookup f.(reflect.Tag) "redis")) "-").

(** The value of the tag [redis] of a field: the name of its hash field. *)
Definition tagName (f : reflect.StructField) : string :=
  fst (reflect.Lookup f.(reflect.Tag) "redis").

(** A field with its value passes validation and can be read: its kind is
    not refused and the field is exported. *)
Definition accepted (fx : reflect.StructField * GoValue) : bool :=
  negb (invalidFieldKind
          (Reflection.Kind {| Reflection.target := snd fx;
                              Reflection.flagRO := false |}))
  && reflect.IsExported (fst fx).

(** One hash-field write per tagged field, in the order of the fields. *)
Fixpoint fieldWrites (key : string)
  (fields : list (reflect.StructField * GoValue)) : list rdb.Cmd :=
  match fields with
  | [] => []
  | (f, x) :: rest =>
      if tagged f
      then rdb.CmdHSet key (tagName f) (toAny x) :: fieldWrites key rest
      else fieldWrites key rest
  end.

(** The call that queues a command on a pipeline. *)
Definition queueing (cmd : rdb.Cmd) : Call :=
  match cmd with
  | rdb.CmdHSet key field value => CallPipeHSet key field value
  | rdb.CmdExpire key ttl => CallPipeExpire key ttl
  | rdb.CmdDel keys => CallPipeDel keys
  end.

(** The result of running the batch [queue] on [k] and inspecting it, as
    the callers of [Exec] return it. *)
Definition inspected (k : rdb.UniversalClient) (queue : list rdb.Cmd)
  : option error :=
  match snd (k.(rdb.Exec) queue) with
  | Some e => Some e
  | None => firstErr None (fst (k.(rdb.Exec) queue))
  end.

(** A struct type with two tagged fields, an excluded field and a field
    without the tag. *)
Definition sampleObject : GoValue :=
  VStruct
    [ ({| reflect.Name := "ID"; reflect.PkgPath := "";
          reflect.Tag := [("redis", "id")] |}, VNumber reflect.NInt 7);
      ({| reflect.Name := "Secret"; reflect.PkgPath := "";
          reflect.Tag := [("redis", "-")] |}, VString "s");
      ({| reflect.Name := "Note"; reflect.PkgPath := "";
          reflect.Tag := [("json", "note")] |}, VString "n");
      ({| reflect.Name := "Name"; reflect.PkgPath := "";
          reflect.Tag := [("json", "name"); ("redis", "name")] |},
       VString "bob") ].

(** A struct whose only tagged field holds a pointer. *)
Definition pointerObject : GoValue :=
  VStruct
    [ ({| reflect.Name := "Next"; reflect.PkgPath := "";
          reflect.Tag := [("redis", "next")] |}, VPointer 4096) ].

(** A sub-result carrying [err]. *)
Definition subResult (err : option error) : rdb.Cmder :=
  {| rdb.Args := rdb.CmdDel []; rdb.Err := err |}.

(** The type and the value reflection sees for a struct with [fields]. *)
Definition structType (fields : list (reflect.StructField * GoValue))
  : option Reflection.Type_ :=
  Some {| Reflection.typeKind := reflect.Struct;
          Reflection.typeFields := map fst fields |}.

Definition structValue (fields : list (reflect.StructField * GoValue))
  : Reflection.Value :=
  {| Reflection.target := VStruct fields; Reflection.flagRO := false |}.

(** A token source for examples. *)
Definition sampleUUID (n : nat) : string :=
  match n with
  | O => "1f0c"
  | S O => "2a9d"
  | _ => "3b7e"
  end.

(** Instrumentation that attaches without error. *)
Definition noInstrumentError (k : option rdb.UniversalClient)
  (opts : list redisotel.Option_) : option error := None.

(** A marshaller for examples. *)
Definition sampleMarshal : MarshallerFunc := fun _ => ([], None).

(** A connection whose ping fails. *)
Definition downConn : rdb.UniversalClient :=
  doubleConn (okStringCmd "v") [] ([], None) (Some (BackendError "down")).

(** The options the package hands out: the results of its [With...]
    functions. *)
Inductive builtOption (uuid : nat -> string) : Option_ -> Prop :=
| built_WithLogger l : builtOption uuid (WithLogger l)
| built_WithConfig config : builtOption uuid (WithConfig config)
| built_WithClientID explicitID : builtOption uuid (WithClientID uuid explicitID)
| built_WithIdentitySuffix s : builtOption uuid (WithIdentitySuffix s)
| built_WithMarshaller fn : builtOption uuid (WithMarshaller fn)
| built_WithTLS t : builtOption uuid (WithTLS t)
| built_WithLimiter l : builtOption uuid (WithLimiter l)
| built_WithMeterProvider mp : builtOption uuid (WithMeterProvider mp)
| built_WithTraceProvider p : builtOption uuid (WithTraceProvider p)
| built_WithDBStatement on : builtOption uuid (WithDBStatement on)
| built_WithDBSystem system : builtOption uuid (WithDBSystem system)
| built_WithAttributes attrs : builtOption uuid (WithAttributes attrs).

(** The call opens a connection. *)
Definition opening (c : Call) : bool :=
  match c with
  | CallNewClient _ | CallNewClusterClient _ => true
  | _ => false
  end.

(** A struct whose tagged field is not exported. *)
Definition privateObject : GoValue :=
  VStruct
    [ ({| reflect.Name := "count"; reflect.PkgPath := "main";
          reflect.Tag := [("redis", "count")] |}, VNumber reflect.NInt 3) ].

(** ** Further notions: addresses *)

(** The string holds a comma. *)
Definition hasComma (s : string) : bool :=
  existsb (Ascii.eqb ",") (list_ascii_of_string s).

(** The bytes of all the strings of a list together. *)
Fixpoint totalBytes (l : list string) : Z :=
  match l with
  | [] => 0
  | p :: rest => len p + totalBytes rest
  end.

(** A configuration with the fields replaced that only the single-node
    policy has: network, database and the RESP3 flag. *)
Definition withSingleNodeFields (network : string) (db : Z) (resp3 : bool)
  (cfg : Config) : Config := {|
  Network := network; Addrs := cfg.(Addrs); Protocol := cfg.(Protocol);
  Username := cfg.(Username); Password := cfg.(Password);
  DB := db; MaxRedirects := cfg.(MaxRedirects);
  ReadOnly := cfg.(ReadOnly); RouteByLatency := cfg.(RouteByLatency);
  RouteRandomly := cfg.(RouteRandomly);
  MaxRetries := cfg.(MaxRetries);
  MinRetryBackoff := cfg.(MinRetryBackoff);
  MaxRetryBackoff := cfg.(MaxRetryBackoff);
  DialTimeout := cfg.(DialTimeout); ReadTimeout := cfg.(ReadTimeout);
  WriteTimeout := cfg.(WriteTimeout);
  ContextTimeoutEnabled := cfg.(ContextTimeoutEnabled);
  PoolFIFO := cfg.(PoolFIFO); PoolSize := cfg.(PoolSize);
  PoolTimeout := cfg.(PoolTimeout);
  MinIdleConns := cfg.(MinIdleConns); MaxIdleConns := cfg.(MaxIdleConns);
  MaxActiveConns := cfg.(MaxActiveConns);
  ConnMaxIdleTime := cfg.(ConnMaxIdleTime);
  ConnMaxLifetime := cfg.(ConnMaxLifetime);
  DisableIndentity := cfg.(DisableIndentity);
  UnstableResp3 := resp3
|}.

(** ** Further notions: construction *)

(** The client as [newClient] has it after the options: the logger with the
    component attribute, and [json.Marshal] when no marshaller was set. *)
Definition prepared (marshal : MarshallerFunc) (c : Client) : Client :=
  let c := set_logger (c.(logger) ++ [("component", "redis")]) c in
  match c.(marshaller) with
  | None => set_marshaller (Some marshal) c
  | Some _ => c
  end.

(** The name [getID] gives a client in a world. *)
Definition connectionName (uuid : nat -> string) (c : Client) (w : World)
  : string :=
  if String.eqb c.(id) "" then uuid w.(drawn) else c.(id).

(** The world after [getID]. *)
Definition afterName (c : Client) (w : World) : World :=
  if String.eqb c.(id) "" then {| drawn := S w.(drawn); calls := w.(calls) |}
  else w.

(** The call that opens the connection of a prepared client, in either
    mode. *)
Definition openingCall (cluster : bool) (name : string) (c : Client) : Call :=
  if cluster
  then CallNewClusterClient
         (completeClusterOptions (parseClusterConfig c.(cfg)) c.(tls) name)
  else CallNewClient
         (completeOptions (parseClientConfig c.(cfg)) c.(tls) name c.(limiter)).

(** The connection that call opens. *)
Definition opened (dial : rdb.Options.t -> rdb.UniversalClient)
  (dialCluster : rdb.ClusterOptions.t -> rdb.UniversalClient)
  (cluster : bool) (name : string) (c : Client) : rdb.UniversalClient :=
  if cluster
  then dialCluster
         (completeClusterOptions (parseClusterConfig c.(cfg)) c.(tls) name)
  else dial
         (completeOptions (parseClientConfig c.(cfg)) c.(tls) name c.(limiter)).


(** Instrumentation whose tracing step fails. *)
Definition failingTracing (k : option rdb.UniversalClient)
  (opts : list redisotel.Option_) : option error :=
  Some (BackendError "tracing").

(** ** client.go: further commands *)

(** What the connection answers to the commands of [rdb.Cmdable] that the
    methods below use: [Exists] the count and error of an [*rdb.IntCmd],
    [Set] the error of an [*rdb.StatusCmd]. *)
Module Cmdable.
Record t : Type := {
  Exists : string -> Z * option error;
  Set_ : string -> GoValue -> Z -> option error
}.
End Cmdable.

(** A command the methods below send on the connection. *)
Inductive Sent : Type :=
| SentExists (key : string)
| SentHGet (key field : string)
| SentSet (key : string) (value : GoValue) (expiration : Z).

(** A [[]byte] as a Go value. *)
Definition bytesValue (b : list ascii) : GoValue :=
  VSlice (map (fun a => VNumber reflect.NUint8 (Z.of_N (N_of_ascii a))) b).

Definition nilDereference : string :=
  "runtime error: invalid memory address or nil pointer dereference".

Module ClientCommands.

(** [Exists(ctx, key)]: the results, and the commands sent. *)
Definition Exists (c : Client) (cmds : Cmdable.t) (key : string)
  : Outcome (bool * option error) * list Sent :=
  match c.(conn) with
  | None => (Panicked nilDereference, [])
  | Some _ =>
      let res := cmds.(Cmdable.Exists) key in
      match snd res with
      | Some err => (Returned (false, Some err), [SentExists key])
      | None => (Returned (fst res =? 1, None), [SentExists key])
      end
  end.

(** [HGet(ctx, key, field, dst)]: the value stored in [dst], if any, and
    the error; and the commands sent. *)
Definition HGet (c : Client) (key field : string)
  : Outcome (option GoValue * option error) * list Sent :=
  match c.(conn) with
  | None => (Panicked nilDereference, [])
  | Some k =>
      match (k.(rdb.HGet) key field).(rdb.Scan) with
      | inr err =>
          if errors.Is err rdb.Nil
          then (Returned (None, Some ErrKeyNotFound), [SentHGet key field])
          else (Returned (None, Some err), [SentHGet key field])
      | inl v => (Returned (Some v, None), [SentHGet key field])
      end
  end.

(** [Set(ctx, key, val, expiration)]. *)
Definition Set_ (c : Client) (cmds : Cmdable.t) (key : string) (val : GoValue)
  (expiration : Z) : Outcome (option error) * list Sent :=
  match c.(conn) with
  | None => (Panicked nilDereference, [])
  | Some _ =>
      (Returned (cmds.(Cmdable.Set_) key val expiration),
       [SentSet key val expiration])
  end.

(** [SetStruct(ctx, key, val, expiration)]: the marshaller runs first;
    calling a nil marshaller panics. *)
Definition SetStruct (c : Client) (cmds : Cmdable.t) (key : string)
  (val : GoValue) (expiration : Z) : Outcome (option error) * list Sent :=
  match c.(marshaller) with
  | None => (Panicked nilDereference, [])
  | Some marshal =>
      match marshal val with
      | (_, Some err) => (Returned (Some err), [])
      | (b, None) =>
          match c.(conn) with
          | None => (Panicked nilDereference, [])
          | Some _ =>
              (Returned (cmds.(Cmdable.Set_) key (bytesValue b) expiration),
               [SentSet key (bytesValue b) expiration])
          end
      end
  end.

End ClientCommands.

(** Answers for examples: the key ["x"] exists once, every SET succeeds. *)
Definition sampleCmdable : Cmdable.t :=
  {| Cmdable.Exists := fun key => (if String.eqb key "x" then 1 else 0, None);
     Cmdable.Set_ := fun _ _ _ => None |}.

(** A marshaller that fails. *)
Definition failingMarshal : MarshallerFunc :=
  fun _ => ([], Some (BackendError "unsupported type")).

(** A struct whose second tagged field holds a slice. *)
Definition sliceObject : GoValue :=
  VStruct
    [ ({| reflect.Name := "ID"; reflect.PkgPath := "";
          reflect.Tag := [("redis", "id")] |}, VNumber reflect.NInt 7);
      ({| reflect.Name := "Tags"; reflect.PkgPath := "";
          reflect.Tag := [("redis", "tags")] |}, VSlice [VString "a"]);
      ({| reflect.Name := "Name"; reflect.PkgPath := "";
          reflect.Tag := [("redis", "name")] |}, VString "bob") ].
(** * Properties *)

Local Open Scope list_scope.

(** Unfold the plumbing of a computation in the world. *)
Ltac run :=
  unfold bind, theConn, call, ret, lift, panic, set_conn; cbn.

(** ** Configuration resolver *)

Lemma genSplit_not_nil (sep : string) (s : string) :
  forall skip cur, strings.genSplit sep skip cur s <> [].
Proof.
  induction s as [|c s IH]; intros skip cur; cbn [strings.genSplit].
  - discriminate.
  - destruct skip as [|k].
    + destruct (strings.HasPrefix (String c s) sep); [discriminate | apply IH].
    + apply IH.
Qed.

Lemma Split_comma_not_nil (s : string) : strings.Split s "," <> [].
Proof. unfold strings.Split. apply genSplit_not_nil. Qed.

Lemma wrap64_small (z : Z) : - 2 ^ 63 <= z < 2 ^ 63 -> wrap64 z = z.
Proof.
  intros H. unfold wrap64.
  rewrite Z.mod_small by lia. lia.
Qed.

(** With an unset redirect budget the multi-node policy's budget is the
    byte length of the address string plus one. *)
Lemma parseClusterConfig_MaxRedirects (cfg : Config) :
  cfg.(MaxRedirects) = 0 ->
  len cfg.(Addrs) + 1 < 2 ^ 63 ->
  rdb.ClusterOptions.MaxRedirects (parseClusterConfig cfg)
  = len cfg.(Addrs) + 1.
Proof.
  intros H Hlen. unfold parseClusterConfig; cbn [rdb.ClusterOptions.MaxRedirects].
  rewrite H. cbn [Z.eqb]. unfold int_add. apply wrap64_small.
  unfold len in *. lia.
Qed.

Lemma string_of_list_ascii_snoc (l : list ascii) (c : ascii) (s : string) :
  (string_of_list_ascii (l ++ [c]) ++ s)%string
  = (string_of_list_ascii l ++ String c s)%string.
Proof.
  induction l as [|a l IH]; cbn; [reflexivity | rewrite IH; reflexivity].
Qed.

Lemma concat_cons (sep x : string) (l : list string) :
  l <> [] ->
  String.concat sep (x :: l) = (x ++ sep ++ String.concat sep l)%string.
Proof. destruct l; [contradiction | reflexivity]. Qed.

(** Joining the pieces of [strings.Split(s, ",")] with commas gives [s]
    back: the pieces are what stands between the commas. *)
Lemma genSplit_comma_concat (s : string) :
  forall cur,
    String.concat "," (strings.genSplit "," 0 cur s)
    = (string_of_list_ascii (rev cur) ++ s)%string.
Proof.
  induction s as [|c s IH]; intros cur; cbn [strings.genSplit].
  - cbn [String.concat]. generalize (string_of_list_ascii (rev cur)).
    intros t; induction t as [|a t IHt]; cbn; [|rewrite <- IHt]; reflexivity.
  - cbn [strings.HasPrefix String.length Nat.pred]. rewrite andb_true_r.
    destruct (Ascii.eqb c ",") eqn:E.
    + apply Ascii.eqb_eq in E. subst c.
      rewrite concat_cons by apply genSplit_not_nil.
      rewrite IH. reflexivity.
    + rewrite IH. cbn [rev]. apply string_of_list_ascii_snoc.
Qed.

Lemma Split_comma_concat (s : string) :
  String.concat "," (strings.Split s ",") = s.
Proof. unfold strings.Split. apply genSplit_comma_concat. Qed.

(** C1 (the code differs): on the address field "a:1,b:2,c:3", which holds
    three addresses, with an unset redirect budget, multi-node resolution
    sets the redirect budget to 12, the byte length of the field plus one,
    where the number of addresses plus one is 4. *)
Theorem parseClusterConfig_budget_is_byte_length :
  let cfg := withAddrs "a:1,b:2,c:3" 0 defaultConfig in
  cfg.(MaxRedirects) = 0
  /\ rdb.ClusterOptions.Addrs (parseClusterConfig cfg) = ["a:1"; "b:2"; "c:3"]
  /\ numberOfAddresses cfg.(Addrs) + 1 = 4
  /\ rdb.ClusterOptions.MaxRedirects (parseClusterConfig cfg) = 12.
Proof. cbv zeta. repeat split; vm_compute; reflexivity. Qed.

(** The statement of C6 fails for the protocol version: a negative
    protocol version is not copied, the policy keeps zero. *)
Lemma parseClientConfig_drops_negative_protocol :
  let cfg := withProtocol (-1) defaultConfig in
  rdb.Options.Protocol (parseClientConfig cfg) = 0
  /\ rdb.Options.Protocol (parseClientConfig cfg) <> cfg.(Protocol).
Proof. cbv zeta. split; vm_compute; [reflexivity | discriminate]. Qed.

(** C6 (amended): single-node resolution splits the address field on commas
    and takes the first piece as the connection address; the policy does
    not depend on the three routing flags nor on the redirect budget; the
    protocol version is copied when it is positive and is zero otherwise;
    every other field of the configuration is copied as it is. *)
Theorem parseClientConfig_resolution (cfg : Config) :
  let o := parseClientConfig cfg in
  (exists rest, strings.Split cfg.(Addrs) "," = o.(rdb.Options.Addr) :: rest)
  /\ (forall readOnly byLatency randomly,
        parseClientConfig (withRouting readOnly byLatency randomly cfg) = o)
  /\ (forall budget, parseClientConfig (withAddrs cfg.(Addrs) budget cfg) = o)
  /\ o.(rdb.Options.Protocol)
     = (if 0 <? cfg.(Protocol) then cfg.(Protocol) else 0)
  /\ o.(rdb.Options.Network) = cfg.(Network)
  /\ o.(rdb.Options.Username) = cfg.(Username)
  /\ o.(rdb.Options.Password) = cfg.(Password)
  /\ o.(rdb.Options.DB) = cfg.(DB)
  /\ o.(rdb.Options.MaxRetries) = cfg.(MaxRetries)
  /\ o.(rdb.Options.MinRetryBackoff) = cfg.(MinRetryBackoff)
  /\ o.(rdb.Options.MaxRetryBackoff) = cfg.(MaxRetryBackoff)
  /\ o.(rdb.Options.DialTimeout) = cfg.(DialTimeout)
  /\ o.(rdb.Options.ReadTimeout) = cfg.(ReadTimeout)
  /\ o.(rdb.Options.WriteTimeout) = cfg.(WriteTimeout)
  /\ o.(rdb.Options.ContextTimeoutEnabled) = cfg.(ContextTimeoutEnabled)
  /\ o.(rdb.Options.PoolFIFO) = cfg.(PoolFIFO)
  /\ o.(rdb.Options.PoolSize) = cfg.(PoolSize)
  /\ o.(rdb.Options.PoolTimeout) = cfg.(PoolTimeout)
  /\ o.(rdb.Options.MinIdleConns) = cfg.(MinIdleConns)
  /\ o.(rdb.Options.MaxIdleConns) = cfg.(MaxIdleConns)
  /\ o.(rdb.Options.MaxActiveConns) = cfg.(MaxActiveConns)
  /\ o.(rdb.Options.ConnMaxIdleTime) = cfg.(ConnMaxIdleTime)
  /\ o.(rdb.Options.ConnMaxLifetime) = cfg.(ConnMaxLifetime)
  /\ o.(rdb.Options.DisableIndentity) = cfg.(DisableIndentity)
  /\ o.(rdb.Options.UnstableResp3) = cfg.(UnstableResp3).
Proof.
  cbv zeta. split; [|repeat split].
  unfold parseClientConfig; cbn [rdb.Options.Addr].
  pose proof (Split_comma_not_nil cfg.(Addrs)) as Hne.
  destruct (strings.Split cfg.(Addrs) ",") as [|a rest] eqn:E; [contradiction|].
  exists rest. unfold len_slice. cbn [List.length hd].
  replace (0 <? Z.of_nat (S (List.length rest))) with true
    by (symmetry; apply Z.ltb_lt; lia).
  reflexivity.
Qed.

(** The spec's example: on "a:1,b:2,c:3" single-node resolution selects
    "a:1" only. *)
Example parseClientConfig_first_address :
  rdb.Options.Addr (parseClientConfig (withAddrs "a:1,b:2,c:3" 0 defaultConfig))
  = "a:1".
Proof. reflexivity. Qed.

(** ** Typed command layer *)

(** C4: [Get] answers [ErrKeyNotFound] when the error of the reply is the
    missing-value sentinel [rdb.Nil] (or unwraps to it), and answers any
    other error of the reply unchanged; [HGetAll] answers [ErrKeyNotFound]
    whenever the reply holds no field, whatever made the hash empty, and
    never an empty map with success. *)
Theorem Get_HGetAll_not_found (c : Client) (k : rdb.UniversalClient)
  (key : string) (w : World) :
  (forall err,
      (k.(rdb.Get) key).(rdb.Scan) = inr err ->
      errors.Is err rdb.Nil = true ->
      Client.Get (set_conn k c) key w
      = (Returned (None, Some ErrKeyNotFound), after w [CallGet key]))
  /\ ((k.(rdb.Get) key).(rdb.Scan) = inr rdb.Nil ->
      Client.Get (set_conn k c) key w
      = (Returned (None, Some ErrKeyNotFound), after w [CallGet key]))
  /\ (forall err,
      (k.(rdb.Get) key).(rdb.Scan) = inr err ->
      errors.Is err rdb.Nil = false ->
      Client.Get (set_conn k c) key w
      = (Returned (None, Some err), after w [CallGet key]))
  /\ ((k.(rdb.HGetAll) key).(rdb.MapErr) = None ->
      (k.(rdb.HGetAll) key).(rdb.MapVal) = [] ->
      Client.HGetAll (set_conn k c) key w
      = (Returned (None, Some ErrKeyNotFound), after w [CallHGetAll key])).
Proof.
  repeat split.
  - intros err Hs His. unfold Client.Get. run. rewrite Hs, His. reflexivity.
  - intros Hs. unfold Client.Get. run. rewrite Hs. reflexivity.
  - intros err Hs His. unfold Client.Get. run. rewrite Hs, His. reflexivity.
  - intros He Hv. unfold Client.HGetAll. run. rewrite He, Hv. reflexivity.
Qed.

(** C4 at a connection where the key is missing and the hash is empty. *)
Lemma Get_HGetAll_not_found_witness :
  let k := doubleConn (errStringCmd rdb.Nil) [] ([], None) None in
  Client.Get (set_conn k emptyClient) "x" newWorld
  = (Returned (None, Some ErrKeyNotFound), after newWorld [CallGet "x"])
  /\ Client.HGetAll (set_conn k emptyClient) "x" newWorld
     = (Returned (None, Some ErrKeyNotFound), after newWorld [CallHGetAll "x"]).
Proof.
  cbv zeta.
  pose proof (Get_HGetAll_not_found emptyClient
                (doubleConn (errStringCmd rdb.Nil) [] ([], None) None)
                "x" newWorld) as [_ [Hget [_ Hall]]].
  split; [apply Hget | apply Hall]; reflexivity.
Defined.

(** Another backend error passes through [Get] unchanged. *)
Example Get_other_error :
  let k := doubleConn (errStringCmd (BackendError "timeout")) [] ([], None) None in
  fst (Client.Get (set_conn k emptyClient) "x" newWorld)
  = Returned (None, Some (BackendError "timeout")).
Proof. reflexivity. Qed.

(** C5: each typed reader makes one GET and answers found with the decoded
    value when the reply's reader succeeds, not found with a nil error when
    it reports the missing-value sentinel, and not found with the error when
    it reports any other error; the sentinel is never answered as an
    error. *)
Theorem typed_readers (c : Client) (k : rdb.UniversalClient) (key : string)
  (w : World) :
  let res := k.(rdb.Get) key in
  let w' := after w [CallGet key] in
  Client.Bool (set_conn k c) key w
    = (Returned (typedAnswer res.(rdb.Bool)), w')
  /\ Client.Bytes (set_conn k c) key w
    = (Returned (typedAnswer res.(rdb.Bytes)), w')
  /\ Client.Float64 (set_conn k c) key w
    = (Returned (typedAnswer res.(rdb.Float64)), w')
  /\ Client.Int (set_conn k c) key w
    = (Returned (typedAnswer res.(rdb.Int)), w')
  /\ Client.Int64 (set_conn k c) key w
    = (Returned (typedAnswer res.(rdb.Int64)), w')
  /\ Client.Uint64 (set_conn k c) key w
    = (Returned (typedAnswer res.(rdb.Uint64)), w')
  /\ Client.String (set_conn k c) key w
    = (Returned (typedAnswer res.(rdb.Result)), w')
  /\ (forall (A : Type) (r : A * option error),
        (snd (typedAnswer r) <> Some rdb.Nil)
        /\ (snd r = None -> typedAnswer r = (fst r, true, None))
        /\ (forall e, snd r = Some e -> errors.Is e rdb.Nil = true ->
            typedAnswer r = (fst r, false, None))
        /\ (forall e, snd r = Some e -> errors.Is e rdb.Nil = false ->
            typedAnswer r = (fst r, false, Some e))).
Proof.
  cbv zeta.
  repeat match goal with |- _ /\ _ => split end;
    try (match goal with
         | |- ?f _ _ _ = _ => unfold f
         end; run;
         match goal with
         | |- context [let '(_, _) := ?r in _] => destruct r as [val [e|]]
         end; unfold typedAnswer; cbn;
         [destruct (errors.Is e rdb.Nil)|]; reflexivity).
  intros A [val [e|]]; unfold typedAnswer; cbn; repeat split;
    try discriminate; try congruence.
  - destruct (errors.Is e rdb.Nil) eqn:E; cbn; [discriminate|].
    intros H; inversion H; subst. cbn in E. discriminate.
  - intros e' H1 H2; inversion H1; subst. rewrite H2. reflexivity.
  - intros e' H1 H2; inversion H1; subst. rewrite H2. reflexivity.
Qed.

(** C5 at a missing key and at a stored key. *)
Lemma typed_readers_witness :
  Client.Bool (set_conn (doubleConn (errStringCmd rdb.Nil) [] ([], None) None)
                 emptyClient) "x" newWorld
  = (Returned (false, false, None), after newWorld [CallGet "x"])
  /\ Client.String (set_conn stubConn emptyClient) "x" newWorld
     = (Returned ("v", true, None), after newWorld [CallGet "x"]).
Proof.
  split.
  - pose proof (typed_readers emptyClient
                  (doubleConn (errStringCmd rdb.Nil) [] ([], None) None)
                  "x" newWorld) as H.
    cbv zeta in H. destruct H as [H _]. rewrite H. reflexivity.
  - pose proof (typed_readers emptyClient stubConn "x" newWorld) as H.
    cbv zeta in H. destruct H as [_ [_ [_ [_ [_ [_ [H _]]]]]]].
    rewrite H. reflexivity.
Defined.

(** ** Hash writes *)

Lemma refused_is_invalid (k : reflect.Kind) :
  In k refusedShapes -> invalidFieldKind k = true.
Proof.
  unfold refusedShapes; cbn.
  intros H; repeat (destruct H as [H|H]; [subst; reflexivity|]).
  contradiction.
Qed.

(** The statement of C2 fails: on a pointer [HSet] has opened the batch
    before it looks at the value, so the connection has seen one call. *)
Lemma HSet_opens_batch_before_check :
  let r := Client.HSet (set_conn stubConn emptyClient) "k" "f" (VPointer 1) 60
             newWorld in
  fst r = Returned (Some ErrInvalidFieldType)
  /\ calls (snd r) = [CallTxPipeline]
  /\ calls (snd r) <> [].
Proof. cbv zeta. repeat split. cbn. discriminate. Qed.

(** C2 (amended): on a value of pointer, array, map, struct, slice,
    function or channel shape, [HSet] returns [ErrInvalidFieldType]; the
    only call made is the one that opens the batch, before the check;
    nothing is queued and nothing is executed. *)
Theorem HSet_refused_shape (c : Client) (k : rdb.UniversalClient)
  (key field : string) (value : GoValue) (ttl : Z) (w : World) :
  In (Reflection.Kind (Reflection.ValueOf value)) refusedShapes ->
  Client.HSet (set_conn k c) key field value ttl w
  = (Returned (Some ErrInvalidFieldType), after w [CallTxPipeline]).
Proof.
  intros H. apply refused_is_invalid in H.
  unfold Client.HSet. run. rewrite H. reflexivity.
Qed.

(** C2 (amended) on a slice. *)
Lemma HSet_refused_shape_witness :
  Client.HSet (set_conn stubConn emptyClient) "k" "f" (VSlice [VBool true]) 60
    newWorld
  = (Returned (Some ErrInvalidFieldType), after newWorld [CallTxPipeline]).
Proof.
  apply (HSet_refused_shape emptyClient stubConn "k" "f" (VSlice [VBool true])
           60 newWorld).
  cbn. tauto.
Defined.

(** A value of accepted shape is queued with its expiry and the batch is
    executed. *)
Lemma HSet_accepted (c : Client) (k : rdb.UniversalClient)
  (key field : string) (value : GoValue) (ttl : Z) (w : World) :
  invalidFieldKind (Reflection.Kind (Reflection.ValueOf value)) = false ->
  let batch := [rdb.CmdHSet key field value; rdb.CmdExpire key ttl] in
  Client.HSet (set_conn k c) key field value ttl w
  = (Returned (inspected k batch),
     after w [CallTxPipeline; CallPipeHSet key field value;
              CallPipeExpire key ttl; CallExec batch]).
Proof.
  intros H. cbv zeta. unfold Client.HSet, execAndInspect, inspected. run.
  rewrite H. unfold after; cbn.
  destruct (rdb.Exec k _) as [cmder [e|]]; cbn;
    rewrite <- !app_assoc; reflexivity.
Qed.

Lemma nth_error_middle {A : Type} (pre : list A) (a : A) (rest : list A) :
  nth_error (pre ++ a :: rest) (List.length pre) = Some a.
Proof. induction pre as [|p pre IH]; [reflexivity | exact IH]. Qed.

Lemma reflect_struct (data : GoValue)
  (fields : list (reflect.StructField * GoValue)) :
  toAny data = VStruct fields ->
  Reflection.TypeOf data = structType fields
  /\ Reflection.ValueOf data = structValue fields.
Proof.
  intros H. unfold Reflection.TypeOf, Reflection.ValueOf, structValue.
  rewrite H. split; reflexivity.
Qed.

Lemma Interface_accepted (f : reflect.StructField) (x : GoValue) :
  accepted (f, x) = true ->
  Reflection.Interface
    {| Reflection.target := x;
       Reflection.flagRO := false || negb (reflect.IsExported f) |}
  = Returned (toAny x).
Proof.
  unfold accepted; cbn [fst snd]. intros H.
  apply andb_true_iff in H as [Hk He]. rewrite He.
  unfold Reflection.Interface; cbn.
  destruct x; try reflexivity. discriminate Hk.
Qed.

Lemma TypeField_struct (pre : list (reflect.StructField * GoValue))
  (f : reflect.StructField) (x : GoValue)
  (rest : list (reflect.StructField * GoValue)) :
  Reflection.TypeField (structType (pre ++ (f, x) :: rest)) (List.length pre)
  = Returned f.
Proof.
  unfold structType, Reflection.TypeField.
  cbn [Reflection.typeKind Reflection.typeFields].
  rewrite map_app. cbn [map fst].
  replace (List.length pre)
    with (List.length (map fst pre)) by apply length_map.
  rewrite nth_error_middle. reflexivity.
Qed.

Lemma Field_struct (pre : list (reflect.StructField * GoValue))
  (f : reflect.StructField) (x : GoValue)
  (rest : list (reflect.StructField * GoValue)) :
  Reflection.Field (structValue (pre ++ (f, x) :: rest)) (List.length pre)
  = Returned {| Reflection.target := x;
                Reflection.flagRO := false || negb (reflect.IsExported f) |}.
Proof.
  unfold structValue, Reflection.Field.
  cbn [Reflection.target Reflection.flagRO].
  rewrite nth_error_middle. reflexivity.
Qed.

(** One turn of the loop of [HSetObject] over a field without the tag, or
    excluded: nothing happens. *)
Lemma hsetObjectLoop_skip (key : string)
  (pre : list (reflect.StructField * GoValue)) (f : reflect.StructField)
  (x : GoValue) (rest : list (reflect.StructField * GoValue))
  (indices : list nat) (queue : list rdb.Cmd) (w : World) :
  tagged f = false ->
  hsetObjectLoop (structType (pre ++ (f, x) :: rest))
    (structValue (pre ++ (f, x) :: rest)) key
    (List.length pre :: indices) queue w
  = hsetObjectLoop (structType (pre ++ (f, x) :: rest))
      (structValue (pre ++ (f, x) :: rest)) key indices queue w.
Proof.
  intros Ht. cbn [hsetObjectLoop]. unfold bind at 1, lift at 1.
  rewrite TypeField_struct.
  unfold tagged in Ht.
  destruct (reflect.Lookup (reflect.Tag f) "redis") as [tagValue ok].
  cbn [fst snd] in Ht. rewrite Ht. reflexivity.
Qed.

(** One turn of the loop over a tagged field that is accepted: its write
    is queued. *)
Lemma hsetObjectLoop_queue (key : string)
  (pre : list (reflect.StructField * GoValue)) (f : reflect.StructField)
  (x : GoValue) (rest : list (reflect.StructField * GoValue))
  (indices : list nat) (queue : list rdb.Cmd) (w : World) :
  tagged f = true ->
  accepted (f, x) = true ->
  hsetObjectLoop (structType (pre ++ (f, x) :: rest))
    (structValue (pre ++ (f, x) :: rest)) key
    (List.length pre :: indices) queue w
  = hsetObjectLoop (structType (pre ++ (f, x) :: rest))
      (structValue (pre ++ (f, x) :: rest)) key indices
      (queue ++ [rdb.CmdHSet key (tagName f) (toAny x)])
      (after w [CallPipeHSet key (tagName f) (toAny x)]).
Proof.
  intros Ht Ha. cbn [hsetObjectLoop]. unfold bind at 1, lift at 1.
  rewrite TypeField_struct.
  unfold tagged in Ht. unfold tagName.
  destruct (reflect.Lookup (reflect.Tag f) "redis") as [tagValue ok].
  cbn [fst snd] in Ht |- *. rewrite Ht.
  unfold bind, lift. rewrite !Field_struct.
  rewrite (Interface_accepted f x Ha).
  pose proof Ha as Hk. unfold accepted in Hk. cbn [fst snd] in Hk.
  apply andb_true_iff in Hk as [Hk _]. apply negb_true_iff in Hk.
  unfold Reflection.Kind in Hk |- *. cbn [Reflection.target] in Hk |- *.
  rewrite Hk. reflexivity.
Qed.

(** One turn of the loop over a tagged field of refused kind: the early
    return, with nothing more queued. *)
Lemma hsetObjectLoop_refuse (key : string)
  (pre : list (reflect.StructField * GoValue)) (f : reflect.StructField)
  (x : GoValue) (rest : list (reflect.StructField * GoValue))
  (indices : list nat) (queue : list rdb.Cmd) (w : World) :
  tagged f = true ->
  invalidFieldKind
    (Reflection.Kind {| Reflection.target := x; Reflection.flagRO := false |})
  = true ->
  hsetObjectLoop (structType (pre ++ (f, x) :: rest))
    (structValue (pre ++ (f, x) :: rest)) key
    (List.length pre :: indices) queue w
  = (Returned (inl ErrInvalidFieldType), w).
Proof.
  intros Ht Hk. cbn [hsetObjectLoop]. unfold bind at 1, lift at 1.
  rewrite TypeField_struct.
  unfold tagged in Ht.
  destruct (reflect.Lookup (reflect.Tag f) "redis") as [tagValue ok].
  cbn [fst snd] in Ht. rewrite Ht.
  unfold bind, lift. rewrite Field_struct.
  unfold Reflection.Kind in Hk |- *. cbn [Reflection.target] in Hk |- *.
  rewrite Hk. reflexivity.
Qed.

(** One turn of the loop over a tagged field of accepted kind that is not
    exported: reading its value panics. *)
Lemma hsetObjectLoop_unexported (key : string)
  (pre : list (reflect.StructField * GoValue)) (f : reflect.StructField)
  (x : GoValue) (rest : list (reflect.StructField * GoValue))
  (indices : list nat) (queue : list rdb.Cmd) (w : World) :
  tagged f = true ->
  invalidFieldKind
    (Reflection.Kind {| Reflection.target := x; Reflection.flagRO := false |})
  = false ->
  reflect.IsExported f = false ->
  exists msg,
    hsetObjectLoop (structType (pre ++ (f, x) :: rest))
      (structValue (pre ++ (f, x) :: rest)) key
      (List.length pre :: indices) queue w
    = (Panicked msg, w).
Proof.
  intros Ht Hk He. cbn [hsetObjectLoop]. unfold bind at 1, lift at 1.
  rewrite TypeField_struct.
  unfold tagged in Ht.
  destruct (reflect.Lookup (reflect.Tag f) "redis") as [tagValue ok].
  cbn [fst snd] in Ht. rewrite Ht.
  unfold bind, lift. rewrite !Field_struct.
  unfold Reflection.Kind in Hk |- *. cbn [Reflection.target] in Hk |- *.
  rewrite Hk. unfold Reflection.Interface.
  cbn [Reflection.target Reflection.flagRO]. rewrite He. cbn [negb orb].
  destruct x; eexists; reflexivity.
Qed.

Lemma after_nil (w : World) : after w [] = w.
Proof. destruct w; unfold after; cbn. rewrite app_nil_r. reflexivity. Qed.

Lemma after_after (w : World) (a b : list Call) :
  after (after w a) b = after w (a ++ b).
Proof. unfold after; cbn. rewrite app_assoc. reflexivity. Qed.

Lemma middle_app {A : Type} (pre : list A) (a : A) (rest : list A) :
  (pre ++ a :: rest = (pre ++ [a]) ++ rest)%list.
Proof. rewrite <- app_assoc. reflexivity. Qed.

Lemma length_snoc {A : Type} (pre : list A) (a : A) :
  List.length (pre ++ [a]) = S (List.length pre).
Proof. rewrite length_app. cbn. apply Nat.add_1_r. Qed.

(** The loop of [HSetObject] over fields whose tagged ones are all
    accepted queues exactly the writes of the tagged fields, in order. *)
Lemma hsetObjectLoop_accepted (key : string)
  (rest : list (reflect.StructField * GoValue)) :
  forall (pre : list (reflect.StructField * GoValue)) (queue : list rdb.Cmd)
         (w : World),
    Forall (fun fx => tagged (fst fx) = true -> accepted fx = true) rest ->
    hsetObjectLoop (structType (pre ++ rest)) (structValue (pre ++ rest)) key
      (seq (List.length pre) (List.length rest)) queue w
    = (Returned (inr (queue ++ fieldWrites key rest)%list),
       after w (map queueing (fieldWrites key rest))).
Proof.
  induction rest as [|[f x] rest IH]; intros pre queue w Hall.
  - cbn. rewrite app_nil_r, after_nil. reflexivity.
  - inversion Hall as [|? ? Hfx Hrest]; subst. cbn [fst] in Hfx.
    cbn [List.length seq fieldWrites].
    destruct (tagged f) eqn:Ht.
    + rewrite hsetObjectLoop_queue by auto.
      rewrite middle_app, <- (length_snoc pre (f, x)).
      rewrite IH by assumption.
      rewrite after_after, <- app_assoc. reflexivity.
    + rewrite hsetObjectLoop_skip by assumption.
      rewrite middle_app, <- (length_snoc pre (f, x)).
      apply IH; assumption.
Qed.

(** In every run the loop of [HSetObject] queues a prefix of the writes of
    the tagged fields and nothing else, and it ends normally only with all
    of them queued. *)
Lemma hsetObjectLoop_prefix (key : string)
  (rest : list (reflect.StructField * GoValue)) :
  forall (pre : list (reflect.StructField * GoValue)) (queue : list rdb.Cmd)
         (w : World),
  exists done more,
    fieldWrites key rest = (done ++ more)%list
    /\ snd (hsetObjectLoop (structType (pre ++ rest))
              (structValue (pre ++ rest)) key
              (seq (List.length pre) (List.length rest)) queue w)
       = after w (map queueing done)
    /\ (forall q,
          fst (hsetObjectLoop (structType (pre ++ rest))
                 (structValue (pre ++ rest)) key
                 (seq (List.length pre) (List.length rest)) queue w)
          = Returned (inr q) ->
          more = [] /\ q = (queue ++ done)%list).
Proof.
  induction rest as [|[f x] rest IH]; intros pre queue w.
  - exists [], []. cbn. rewrite after_nil, app_nil_r.
    repeat split; congruence.
  - cbn [List.length seq fieldWrites].
    destruct (tagged f) eqn:Ht.
    + destruct (invalidFieldKind
                  (Reflection.Kind {| Reflection.target := x;
                                      Reflection.flagRO := false |})) eqn:Hk.
      * rewrite hsetObjectLoop_refuse by assumption.
        eexists [], _. cbn. rewrite after_nil.
        repeat split; discriminate.
      * destruct (reflect.IsExported f) eqn:He.
        -- assert (Ha : accepted (f, x) = true)
             by (unfold accepted; cbn [fst snd]; rewrite Hk, He; reflexivity).
           rewrite hsetObjectLoop_queue by assumption.
           rewrite middle_app, <- (length_snoc pre (f, x)).
           destruct (IH (pre ++ [(f, x)])
                       (queue ++ [rdb.CmdHSet key (tagName f) (toAny x)])
                       (after w [CallPipeHSet key (tagName f) (toAny x)]))
             as (done & more & Hsplit & Hw & Hq).
           exists (rdb.CmdHSet key (tagName f) (toAny x) :: done), more.
           split; [rewrite Hsplit; reflexivity|].
           split; [rewrite Hw, after_after; reflexivity|].
           intros q Hr. destruct (Hq q Hr) as [Hm Hqq].
           split; [assumption|]. rewrite Hqq, <- app_assoc. reflexivity.
        -- destruct (hsetObjectLoop_unexported key pre f x rest
                       (seq (S (List.length pre)) (List.length rest))
                       queue w Ht Hk He) as [msg Hp].
           rewrite Hp. eexists [], _. cbn. rewrite after_nil.
           repeat split; discriminate.
    + rewrite hsetObjectLoop_skip by assumption.
      rewrite middle_app, <- (length_snoc pre (f, x)).
      apply IH.
Qed.

(** The writes of the tagged fields are the fields that carry the tag
    [redis] with a value other than ["-"], each under its tag value. *)
Lemma fieldWrites_iff (key : string)
  (fields : list (reflect.StructField * GoValue)) (cmd : rdb.Cmd) :
  In cmd (fieldWrites key fields)
  <-> exists f x,
        In (f, x) fields
        /\ snd (reflect.Lookup f.(reflect.Tag) "redis") = true
        /\ fst (reflect.Lookup f.(reflect.Tag) "redis") <> "-"
        /\ cmd = rdb.CmdHSet key (fst (reflect.Lookup f.(reflect.Tag) "redis"))
                   (toAny x).
Proof.
  assert (Htag : forall f, tagged f = true
            <-> snd (reflect.Lookup f.(reflect.Tag) "redis") = true
                /\ fst (reflect.Lookup f.(reflect.Tag) "redis") <> "-").
  { intros f. unfold tagged. rewrite andb_true_iff, negb_true_iff.
    rewrite String.eqb_neq. tauto. }
  induction fields as [|[f x] fields IH]; cbn [fieldWrites].
  - split; [contradiction | intros (f & x & [] & _)].
  - destruct (tagged f) eqn:Ht.
    + split.
      * intros [Hc | Hin].
        -- exists f, x. apply Htag in Ht as [H1 H2].
           repeat split; auto. left; reflexivity.
        -- apply IH in Hin as (f' & x' & Hin & H).
           exists f', x'. split; [right; assumption | exact H].
      * intros (f' & x' & [Heq | Hin] & H1 & H2 & Hc).
        -- inversion Heq; subst. left. reflexivity.
        -- right. apply IH. exists f', x'. auto.
    + rewrite IH. split.
      * intros (f' & x' & Hin & H). exists f', x'.
        split; [right; assumption | exact H].
      * intros (f' & x' & [Heq | Hin] & H1 & H2 & Hc).
        -- inversion Heq; subst.
           assert (tagged f' = true) by (apply Htag; auto). congruence.
        -- exists f', x'. auto.
Qed.

Lemma NumField_struct (fields : list (reflect.StructField * GoValue)) :
  Reflection.NumField (structType fields) = Returned (List.length fields).
Proof.
  unfold Reflection.NumField, structType; cbn. rewrite length_map. reflexivity.
Qed.

(** [HSetObject] on a struct, up to the end of its loop. *)
Lemma HSetObject_struct (c : Client) (k : rdb.UniversalClient) (key : string)
  (data : GoValue) (fields : list (reflect.StructField * GoValue)) (ttl : Z)
  (w : World) :
  toAny data = VStruct fields ->
  Client.HSetObject (set_conn k c) key data ttl w
  = match hsetObjectLoop (structType fields) (structValue fields) key
            (seq 0 (List.length fields)) [] (after w [CallTxPipeline]) with
    | (Returned (inl e), w') => (Returned (Some e), w')
    | (Returned (inr queue), w') =>
        (Returned (inspected k (queue ++ [rdb.CmdExpire key ttl])),
         after w' [CallPipeExpire key ttl;
                   CallExec (queue ++ [rdb.CmdExpire key ttl])])
    | (Panicked msg, w') => (Panicked msg, w')
    end.
Proof.
  intros H. destruct (reflect_struct data fields H) as [Ht Hv].
  unfold Client.HSetObject. rewrite Ht, Hv.
  unfold bind at 1, theConn, set_conn, ret at 1. cbn [conn].
  unfold bind at 1, call at 1. fold (after w [CallTxPipeline]).
  unfold bind at 1, lift at 1. rewrite NumField_struct.
  unfold bind at 1.
  destruct (hsetObjectLoop _ _ _ _ _ _) as [[[e|queue]|msg] w']; try reflexivity.
  unfold execAndInspect, inspected, bind, call, ret, after. cbn.
  destruct (rdb.Exec k _) as [cmder [e|]]; cbn;
    rewrite <- !app_assoc; reflexivity.
Qed.

(** [HSetObject] on a struct whose tagged fields are all accepted: the
    writes of the tagged fields and the expiry are queued in this order and
    executed as one batch. *)
Lemma HSetObject_accepted (c : Client) (k : rdb.UniversalClient)
  (key : string) (data : GoValue)
  (fields : list (reflect.StructField * GoValue)) (ttl : Z) (w : World) :
  toAny data = VStruct fields ->
  Forall (fun fx => tagged (fst fx) = true -> accepted fx = true) fields ->
  let batch := fieldWrites key fields ++ [rdb.CmdExpire key ttl] in
  Client.HSetObject (set_conn k c) key data ttl w
  = (Returned (inspected k batch),
     after w (CallTxPipeline :: map queueing (fieldWrites key fields)
              ++ [CallPipeExpire key ttl; CallExec batch])).
Proof.
  intros H Hall. cbv zeta. rewrite (HSetObject_struct c k key data fields ttl w H).
  pose proof (hsetObjectLoop_accepted key fields [] []
                (after w [CallTxPipeline]) Hall) as Hloop.
  cbn [app List.length] in Hloop. rewrite Hloop.
  rewrite !after_after. reflexivity.
Qed.

(** The statement of C7 fails on a struct whose tagged field holds a
    pointer: the field carries the tag with a value other than ["-"], and no
    write is queued for it. *)
Lemma HSetObject_tagged_pointer_not_queued :
  let f := {| reflect.Name := "Next"; reflect.PkgPath := "";
              reflect.Tag := [("redis", "next")] |} in
  let r := Client.HSetObject (set_conn stubConn emptyClient) "k" pointerObject
             60 newWorld in
  pointerObject = VStruct [(f, VPointer 4096)]
  /\ reflect.Lookup f.(reflect.Tag) "redis" = ("next", true)
  /\ fst r = Returned (Some ErrInvalidFieldType)
  /\ calls (snd r) = [CallTxPipeline]
  /\ ~ In (CallPipeHSet "k" "next" (VPointer 4096)) (calls (snd r)).
Proof.
  cbv zeta. repeat split. cbn. intros [H|[]]. discriminate H.
Qed.

(** C7 (amended): on a struct whose fields that carry the tag [redis] with
    a value other than ["-"] are all exported and of accepted shape,
    [HSetObject] queues a hash-field write for a field if and only if the
    field carries the tag with a value other than ["-"], in the order of the
    fields, then the expiry, and executes them as one batch; with no such
    field the expiry is the only operation of the executed batch.  In every
    run on a struct, only writes of such fields are queued, and a batch is
    executed only with all of them. *)
Theorem HSetObject_tagged_fields (c : Client) (k : rdb.UniversalClient)
  (key : string) (data : GoValue)
  (fields : list (reflect.StructField * GoValue)) (ttl : Z) (w : World) :
  toAny data = VStruct fields ->
  let batch := fieldWrites key fields ++ [rdb.CmdExpire key ttl] in
  let run := Client.HSetObject (set_conn k c) key data ttl w in
  (Forall (fun fx => tagged (fst fx) = true -> accepted fx = true) fields ->
   run = (Returned (inspected k batch),
          after w (CallTxPipeline :: map queueing (fieldWrites key fields)
                   ++ [CallPipeExpire key ttl; CallExec batch])))
  /\ (forall cmd,
        In cmd (fieldWrites key fields)
        <-> exists f x,
              In (f, x) fields
              /\ snd (reflect.Lookup f.(reflect.Tag) "redis") = true
              /\ fst (reflect.Lookup f.(reflect.Tag) "redis") <> "-"%string
              /\ cmd = rdb.CmdHSet key
                         (fst (reflect.Lookup f.(reflect.Tag) "redis"))
                         (toAny x))
  /\ (Forall (fun fx => tagged (fst fx) = false) fields ->
      run = (Returned (inspected k [rdb.CmdExpire key ttl]),
             after w [CallTxPipeline; CallPipeExpire key ttl;
                      CallExec [rdb.CmdExpire key ttl]]))
  /\ (exists done more tail,
        fieldWrites key fields = done ++ more
        /\ calls (snd run)
           = calls w ++ CallTxPipeline :: map queueing done ++ tail
        /\ (tail = []
            \/ (more = []
                /\ tail = [CallPipeExpire key ttl; CallExec batch]))).
Proof.
  intros H. cbv zeta. repeat apply conj.
  - intros Hall. apply HSetObject_accepted; assumption.
  - intros cmd. apply fieldWrites_iff.
  - intros Hnone.
    assert (Hw : fieldWrites key fields = []).
    { clear H. induction fields as [|[f x] fields IH]; [reflexivity|].
      inversion Hnone as [|? ? Hf Hrest]; subst. cbn [fst] in Hf.
      cbn [fieldWrites]. rewrite Hf. apply IH; assumption. }
    rewrite (HSetObject_accepted c k key data fields ttl w H).
    + rewrite Hw. reflexivity.
    + eapply Forall_impl; [|exact Hnone].
      intros fx Hf Ht. cbv beta in Hf. congruence.
  - rewrite (HSetObject_struct c k key data fields ttl w H).
    destruct (hsetObjectLoop_prefix key fields [] []
                (after w [CallTxPipeline])) as (done & more & Hsplit & Hw & Hq).
    cbn [app List.length] in Hw, Hq.
    destruct (hsetObjectLoop _ _ _ _ _ _) as [[[e|queue]|msg] w'];
      cbn [fst snd] in Hw, Hq; subst w'.
    + exists done, more, []. split; [assumption|].
      split; [|left; reflexivity].
      cbn. rewrite app_nil_r, <- app_assoc. reflexivity.
    + destruct (Hq queue eq_refl) as [Hm Hqq]. cbn [app] in Hqq. subst.
      exists done, [], [CallPipeExpire key ttl;
                        CallExec (done ++ [rdb.CmdExpire key ttl])].
      split; [assumption|].
      rewrite app_nil_r in Hsplit. rewrite Hsplit.
      split; [|right; split; reflexivity].
      cbn. rewrite <- !app_assoc. reflexivity.
    + exists done, more, []. split; [assumption|].
      split; [|left; reflexivity].
      cbn. rewrite app_nil_r, <- app_assoc. reflexivity.
Qed.

(** C7 (amended) on a struct with two tagged fields, one excluded field and
    one field without the tag. *)
Lemma HSetObject_tagged_fields_witness :
  Client.HSetObject (set_conn stubConn emptyClient) "k" sampleObject 60 newWorld
  = (Returned None,
     after newWorld
       [CallTxPipeline;
        CallPipeHSet "k" "id" (VNumber reflect.NInt 7);
        CallPipeHSet "k" "name" (VString "bob");
        CallPipeExpire "k" 60;
        CallExec [rdb.CmdHSet "k" "id" (VNumber reflect.NInt 7);
                  rdb.CmdHSet "k" "name" (VString "bob");
                  rdb.CmdExpire "k" 60]]).
Proof.
  pose proof (HSetObject_tagged_fields emptyClient stubConn "k" sampleObject
                _ 60 newWorld eq_refl) as H.
  cbv zeta in H. destruct H as [H _]. rewrite H.
  - reflexivity.
  - unfold sampleObject. repeat constructor; cbn; congruence.
Defined.

(** A struct without fields: the expiry is the only operation of the
    batch. *)
Example HSetObject_empty_struct :
  Client.HSetObject (set_conn stubConn emptyClient) "k" (VStruct []) 60 newWorld
  = (Returned None,
     after newWorld [CallTxPipeline; CallPipeExpire "k" 60;
                     CallExec [rdb.CmdExpire "k" 60]]).
Proof. reflexivity. Qed.

(** A struct is not enough for [HSetObject] to return: a tagged field that
    is not exported makes it panic when the value is read. *)
Example HSetObject_unexported_field :
  exists msg,
    Client.HSetObject (set_conn stubConn emptyClient) "k" privateObject 60
      newWorld
    = (Panicked msg, after newWorld [CallTxPipeline]).
Proof. eexists. reflexivity. Qed.

Lemma toAny_not_interface (x dyn : GoValue) : toAny x <> VInterface dyn.
Proof.
  revert dyn.
  induction x using GoValue_ind; intros d; cbn; try discriminate.
  apply IHx.
Qed.

(** On a value that is not a struct [HSetObject] panics when it asks for
    the number of fields, having only opened the batch. *)
Lemma HSetObject_non_struct (c : Client) (k : rdb.UniversalClient)
  (key : string) (data : GoValue) (ttl : Z) (w : World) :
  Reflection.Kind (Reflection.ValueOf data) <> reflect.Struct ->
  exists msg,
    Client.HSetObject (set_conn k c) key data ttl w
    = (Panicked msg, after w [CallTxPipeline]).
Proof.
  intros Hk. unfold Client.HSetObject. run.
  unfold Reflection.Kind, Reflection.ValueOf in Hk. cbn in Hk.
  unfold Reflection.TypeOf.
  destruct (toAny data) eqn:E; cbn;
    try (eexists; reflexivity).
  - destruct k0; cbn; eexists; reflexivity.
  - contradiction Hk. reflexivity.
  - exfalso. exact (toAny_not_interface data _ E).
Qed.

(** C10: [HSetObject] needs a struct.  On every value of another kind, the
    nil value included, it panics at the enumeration of the fields: it
    returns nothing, so no [ErrInvalidFieldType] either, no field is looked
    at, nothing is queued and nothing is executed; the one call made is the
    opening of the batch, which comes before the enumeration.  Hence
    [HSetObject] returns only on structs. *)
Theorem HSetObject_needs_struct (c : Client) (k : rdb.UniversalClient)
  (key : string) (data : GoValue) (ttl : Z) (w : World) :
  (Reflection.Kind (Reflection.ValueOf data) <> reflect.Struct ->
   exists msg,
     Client.HSetObject (set_conn k c) key data ttl w
     = (Panicked msg, after w [CallTxPipeline]))
  /\ (forall r w',
        Client.HSetObject (set_conn k c) key data ttl w = (Returned r, w') ->
        Reflection.Kind (Reflection.ValueOf data) = reflect.Struct).
Proof.
  split.
  - apply HSetObject_non_struct.
  - intros r w' Hrun.
    destruct (Reflection.Kind (Reflection.ValueOf data)) eqn:Hk;
      try reflexivity;
      (assert (Hne : Reflection.Kind (Reflection.ValueOf data)
                     <> reflect.Struct) by (rewrite Hk; discriminate));
      destruct (HSetObject_non_struct c k key data ttl w Hne) as [msg Hp];
      rewrite Hp in Hrun; discriminate Hrun.
Qed.

(** C10 on a string, on a pointer and on the nil value. *)
Lemma HSetObject_needs_struct_witness :
  (exists msg,
     Client.HSetObject (set_conn stubConn emptyClient) "k" (VString "s") 60
       newWorld
     = (Panicked msg, after newWorld [CallTxPipeline]))
  /\ (exists msg,
     Client.HSetObject (set_conn stubConn emptyClient) "k" (VPointer 4096) 60
       newWorld
     = (Panicked msg, after newWorld [CallTxPipeline]))
  /\ (exists msg,
     Client.HSetObject (set_conn stubConn emptyClient) "k" VNil 60 newWorld
     = (Panicked msg, after newWorld [CallTxPipeline]))
  /\ Reflection.Kind (Reflection.ValueOf sampleObject) = reflect.Struct.
Proof.
  repeat apply conj.
  - apply (HSetObject_needs_struct emptyClient stubConn "k" (VString "s") 60
             newWorld).
    cbn. discriminate.
  - apply (HSetObject_needs_struct emptyClient stubConn "k" (VPointer 4096) 60
             newWorld).
    cbn. discriminate.
  - apply (HSetObject_needs_struct emptyClient stubConn "k" VNil 60 newWorld).
    cbn. discriminate.
  - apply (proj2 (HSetObject_needs_struct emptyClient stubConn "k" sampleObject
                    60 newWorld)
             None
             (snd (Client.HSetObject (set_conn stubConn emptyClient) "k"
                     sampleObject 60 newWorld))).
    vm_compute. reflexivity.
Defined.

(** ** The inspection of the sub-results *)

Lemma firstErr_nonempty (err : option error) (cmder : list rdb.Cmder) :
  cmder <> [] -> firstErr err cmder = firstErr None cmder.
Proof. destruct cmder; [contradiction | reflexivity]. Qed.

(** [firstErr] answers the error of the first sub-result that carries
    one. *)
Lemma firstErr_Some (cmder : list rdb.Cmder) (e : error) :
  firstErr None cmder = Some e
  <-> exists pre cmd post,
        cmder = pre ++ cmd :: post
        /\ Forall (fun x => x.(rdb.Err) = None) pre
        /\ cmd.(rdb.Err) = Some e.
Proof.
  induction cmder as [|cmd cmder IH]; cbn [firstErr].
  - split; [discriminate|].
    intros (pre & cmd & post & H & _). destruct pre; discriminate H.
  - destruct (rdb.Err cmd) as [e'|] eqn:E.
    + split.
      * intros H. inversion H; subst. exists [], cmd, cmder.
        repeat split; auto.
      * intros (pre & cmd' & post & H & Hpre & Hc).
        destruct pre as [|p pre]; cbn in H; inversion H; subst.
        -- congruence.
        -- inversion Hpre; subst. congruence.
    + rewrite IH. split.
      * intros (pre & cmd' & post & H & Hpre & Hc). subst.
        exists (cmd :: pre), cmd', post. repeat split; auto.
      * intros (pre & cmd' & post & H & Hpre & Hc).
        destruct pre as [|p pre]; cbn in H; inversion H; subst.
        -- congruence.
        -- inversion Hpre; subst. exists pre, cmd', post. auto.
Qed.

(** [firstErr] answers no error exactly when no sub-result carries one. *)
Lemma firstErr_None (cmder : list rdb.Cmder) :
  firstErr None cmder = None
  <-> Forall (fun x => x.(rdb.Err) = None) cmder.
Proof.
  induction cmder as [|cmd cmder IH]; cbn [firstErr].
  - split; auto.
  - destruct (rdb.Err cmd) as [e'|] eqn:E.
    + split; [discriminate|]. intros H; inversion H; subst. congruence.
    + rewrite IH. split; [auto | intros H; inversion H; auto].
Qed.

(** The statement of C3 fails when the batch itself reports an error: [HSet]
    returns that error and does not look at the sub-results, the first of
    which carries another error here. *)
Lemma HSet_returns_batch_error :
  let subs := [subResult (Some (BackendError "first")); subResult None] in
  let k := doubleConn (okStringCmd "v") []
             (subs, Some (BackendError "batch")) None in
  firstErr None subs = Some (BackendError "first")
  /\ fst (Client.HSet (set_conn k emptyClient) "k" "f" (VString "v") 60 newWorld)
     = Returned (Some (BackendError "batch"))
  /\ fst (Client.HSet (set_conn k emptyClient) "k" "f" (VString "v") 60 newWorld)
     <> Returned (firstErr None subs).
Proof. cbv zeta. repeat split. cbn. discriminate. Qed.

(** C3 (amended): when executing the batch reports no batch-level error,
    the error [HSet] and [HSetObject] return is the error of the first
    sub-result that carries one, in the order the sub-results came back,
    whatever later sub-results carry, and no error if none carries one; a
    batch-level error is returned as it is, the sub-results not looked at.
    [MassDelete] returns the first sub-result error whatever the error of
    the pipeline call, and with sub-results none of which carries an error
    it returns no error; with no sub-result at all it returns the error of
    the pipeline call. *)
Theorem first_error_policy (cmder : list rdb.Cmder) (c : Client)
  (k : rdb.UniversalClient) (w : World) :
  (forall e,
      firstErr None cmder = Some e
      <-> exists pre cmd post,
            cmder = pre ++ cmd :: post
            /\ Forall (fun x => x.(rdb.Err) = None) pre
            /\ cmd.(rdb.Err) = Some e)
  /\ (firstErr None cmder = None
      <-> Forall (fun x => x.(rdb.Err) = None) cmder)
  /\ (forall key field value ttl,
        invalidFieldKind (Reflection.Kind (Reflection.ValueOf value)) = false ->
        k.(rdb.Exec) [rdb.CmdHSet key field value; rdb.CmdExpire key ttl]
        = (cmder, None) ->
        fst (Client.HSet (set_conn k c) key field value ttl w)
        = Returned (firstErr None cmder))
  /\ (forall key field value ttl e,
        invalidFieldKind (Reflection.Kind (Reflection.ValueOf value)) = false ->
        k.(rdb.Exec) [rdb.CmdHSet key field value; rdb.CmdExpire key ttl]
        = (cmder, Some e) ->
        fst (Client.HSet (set_conn k c) key field value ttl w)
        = Returned (Some e))
  /\ (forall key data fields ttl,
        toAny data = VStruct fields ->
        Forall (fun fx => tagged (fst fx) = true -> accepted fx = true) fields ->
        k.(rdb.Exec) (fieldWrites key fields ++ [rdb.CmdExpire key ttl])
        = (cmder, None) ->
        fst (Client.HSetObject (set_conn k c) key data ttl w)
        = Returned (firstErr None cmder))
  /\ (forall key data fields ttl e,
        toAny data = VStruct fields ->
        Forall (fun fx => tagged (fst fx) = true -> accepted fx = true) fields ->
        k.(rdb.Exec) (fieldWrites key fields ++ [rdb.CmdExpire key ttl])
        = (cmder, Some e) ->
        fst (Client.HSetObject (set_conn k c) key data ttl w)
        = Returned (Some e))
  /\ (forall keys err,
        k.(rdb.Pipelined) [rdb.CmdDel keys] = (cmder, err) ->
        cmder <> [] ->
        fst (Client.MassDelete (set_conn k c) keys w)
        = Returned (firstErr None cmder))
  /\ (forall keys err,
        k.(rdb.Pipelined) [rdb.CmdDel keys] = (cmder, err) ->
        cmder = [] ->
        fst (Client.MassDelete (set_conn k c) keys w) = Returned err).
Proof.
  repeat match goal with |- _ /\ _ => apply conj end.
  - intros e. apply firstErr_Some.
  - apply firstErr_None.
  - intros key field value ttl Hk Hx.
    rewrite (HSet_accepted c k key field value ttl w Hk).
    cbn [fst]. unfold inspected. rewrite Hx. reflexivity.
  - intros key field value ttl e Hk Hx.
    rewrite (HSet_accepted c k key field value ttl w Hk).
    cbn [fst]. unfold inspected. rewrite Hx. reflexivity.
  - intros key data fields ttl Hs Hall Hx.
    rewrite (HSetObject_accepted c k key data fields ttl w Hs Hall).
    cbn [fst]. unfold inspected. rewrite Hx. reflexivity.
  - intros key data fields ttl e Hs Hall Hx.
    rewrite (HSetObject_accepted c k key data fields ttl w Hs Hall).
    cbn [fst]. unfold inspected. rewrite Hx. reflexivity.
  - intros keys err Hp Hne. unfold Client.MassDelete. run.
    rewrite Hp. cbn. rewrite (firstErr_nonempty err cmder Hne). reflexivity.
  - intros keys err Hp Hnil. unfold Client.MassDelete. run.
    rewrite Hp. subst cmder. reflexivity.
Qed.

(** C3 (amended) on three sub-results of which the second and the third
    carry an error. *)
Lemma first_error_policy_witness :
  let subs := [subResult None; subResult (Some (BackendError "second"));
               subResult (Some (BackendError "third"))] in
  let k := doubleConn (okStringCmd "v") [] (subs, None) None in
  fst (Client.HSet (set_conn k emptyClient) "k" "f" (VString "v") 60 newWorld)
  = Returned (Some (BackendError "second"))
  /\ fst (Client.HSetObject (set_conn k emptyClient) "k" sampleObject 60 newWorld)
     = Returned (Some (BackendError "second"))
  /\ fst (Client.MassDelete (set_conn k emptyClient) ["a"; "b"] newWorld)
     = Returned (Some (BackendError "second")).
Proof.
  cbv zeta.
  pose proof (first_error_policy
                [subResult None; subResult (Some (BackendError "second"));
                 subResult (Some (BackendError "third"))]
                emptyClient
                (doubleConn (okStringCmd "v") []
                   ([subResult None; subResult (Some (BackendError "second"));
                     subResult (Some (BackendError "third"))], None) None)
                newWorld)
    as (_ & _ & Hset & _ & Hobj & _ & Hdel & _).
  repeat apply conj.
  - rewrite (Hset "k" "f" (VString "v") 60); reflexivity.
  - rewrite (Hobj "k" sampleObject _ 60 eq_refl).
    + reflexivity.
    + unfold sampleObject. repeat constructor; cbn; congruence.
    + reflexivity.
  - rewrite (Hdel ["a"; "b"] None); [reflexivity | reflexivity | discriminate].
Defined.

(** ** Identity resolver *)

Lemma append_nonempty (a b : string) : a <> ""%string -> String.eqb (a ++ b) "" = false.
Proof. destruct a; [contradiction | reflexivity]. Qed.

(** C9: with an explicit client id, [WithClientID] draws one fresh token and
    stores the id, a dash and the token; every later identity lookup returns
    this stored string and draws nothing, in whatever world it is made.
    Without an id, each lookup draws a fresh token and stores nothing: two
    lookups in a row return the tokens of two successive draws, which differ
    whenever the two tokens do. *)
Theorem identity_resolution (uuid : nat -> string) (c : Client) (w : World) :
  (forall explicitID,
      explicitID <> ""%string ->
      let identity := (explicitID ++ "-" ++ uuid w.(drawn))%string in
      WithClientID uuid explicitID c w
      = (Returned (set_id identity c),
         {| drawn := S w.(drawn); calls := w.(calls) |})
      /\ (forall w', getID uuid (set_id identity c) w' = (Returned identity, w')))
  /\ (c.(id) <> ""%string ->
      forall w', getID uuid c w' = (Returned c.(id), w'))
  /\ (c.(id) = ""%string ->
      let w1 := {| drawn := S w.(drawn); calls := w.(calls) |} in
      let w2 := {| drawn := S (S w.(drawn)); calls := w.(calls) |} in
      getID uuid c w = (Returned (uuid w.(drawn)), w1)
      /\ getID uuid c w1 = (Returned (uuid (S w.(drawn))), w2)
      /\ (uuid w.(drawn) <> uuid (S w.(drawn)) ->
          fst (getID uuid c w) <> fst (getID uuid c w1))).
Proof.
  repeat match goal with |- _ /\ _ => apply conj end.
  - intros explicitID Hne. cbv zeta. split.
    + unfold WithClientID.
      destruct (String.eqb explicitID "") eqn:E.
      * apply String.eqb_eq in E. contradiction.
      * reflexivity.
    + intros w'. unfold getID. cbn [id set_id].
      rewrite (append_nonempty explicitID _ Hne). reflexivity.
  - intros Hne w'. unfold getID.
    destruct (String.eqb (id c) "") eqn:E.
    + apply String.eqb_eq in E. contradiction.
    + reflexivity.
  - intros He. cbv zeta. unfold getID. rewrite He. cbn.
    repeat split. intros Hd H. inversion H. contradiction.
Qed.

(** C9 on the id "svc" and on a client without id. *)
Lemma identity_resolution_witness :
  WithClientID sampleUUID "svc" emptyClient newWorld
  = (Returned (set_id "svc-1f0c" emptyClient), {| drawn := 1; calls := [] |})
  /\ getID sampleUUID (set_id "svc-1f0c" emptyClient)
       {| drawn := 1; calls := [] |}
     = (Returned "svc-1f0c"%string, {| drawn := 1; calls := [] |})
  /\ fst (getID sampleUUID emptyClient newWorld)
     <> fst (getID sampleUUID emptyClient {| drawn := 1; calls := [] |}).
Proof.
  pose proof (identity_resolution sampleUUID emptyClient newWorld)
    as (Hwith & _ & Hfresh).
  repeat match goal with |- _ /\ _ => apply conj end.
  - apply (Hwith "svc"%string). discriminate.
  - apply (Hwith "svc"%string). discriminate.
  - apply Hfresh; [reflexivity | cbn; discriminate].
Defined.

(** ** Construction *)

Lemma builtOption_quiet (uuid : nat -> string) (opt : Option_) :
  builtOption uuid opt ->
  forall c w, exists c' w',
    opt c w = (Returned c', w') /\ calls w' = calls w.
Proof.
  intros H c w. destruct H.
  - destruct l; do 2 eexists; split; reflexivity.
  - destruct config; do 2 eexists; split; reflexivity.
  - unfold WithClientID. destruct (negb (String.eqb explicitID ""));
      do 2 eexists; split; reflexivity.
  - unfold WithIdentitySuffix. destruct (negb (String.eqb s ""));
      do 2 eexists; split; reflexivity.
  - destruct fn; do 2 eexists; split; reflexivity.
  - destruct t; do 2 eexists; split; reflexivity.
  - destruct l; do 2 eexists; split; reflexivity.
  - destruct mp; do 2 eexists; split; reflexivity.
  - destruct p; do 2 eexists; split; reflexivity.
  - do 2 eexists; split; reflexivity.
  - unfold WithDBSystem. destruct (negb (String.eqb system ""));
      do 2 eexists; split; reflexivity.
  - do 2 eexists; split; reflexivity.
Qed.

Lemma applyOptions_quiet (uuid : nat -> string) (opts : list Option_) :
  Forall (builtOption uuid) opts ->
  forall c w, exists c' w',
    applyOptions opts c w = (Returned c', w') /\ calls w' = calls w.
Proof.
  induction 1 as [|opt opts Hopt Hopts IH]; intros c w.
  - do 2 eexists; split; reflexivity.
  - destruct (builtOption_quiet uuid opt Hopt c w) as (c1 & w1 & H1 & Hc1).
    destruct (IH c1 w1) as (c2 & w2 & H2 & Hc2).
    exists c2, w2. cbn [applyOptions]. unfold bind. rewrite H1, H2.
    split; [reflexivity | congruence].
Qed.

Lemma getID_quiet (uuid : nat -> string) (c : Client) (w : World) :
  exists name w', getID uuid c w = (Returned name, w') /\ calls w' = calls w.
Proof.
  unfold getID. destruct (String.eqb (id c) "");
    do 2 eexists; split; reflexivity.
Qed.

(** What [exposeInstrumenting] does: tracing first, and metrics only when
    tracing attached. *)
Lemma exposeInstrumenting_steps
  (tracing metrics :
     option rdb.UniversalClient -> list redisotel.Option_ -> option error)
  (c : Client) (w : World) :
  exposeInstrumenting tracing metrics c w
  = match tracing c.(conn) c.(traceOptions) with
    | Some e => (Returned (Some e), after w [CallInstrumentTracing c.(traceOptions)])
    | None =>
        (Returned (metrics c.(conn) c.(meterOptions)),
         after w [CallInstrumentTracing c.(traceOptions);
                  CallInstrumentMetrics c.(meterOptions)])
    end.
Proof.
  unfold exposeInstrumenting, bind, call, ret, after. cbn.
  destruct (tracing _ _); [reflexivity|]. cbn.
  rewrite <- app_assoc.
  destruct (metrics _ _); reflexivity.
Qed.

(** The statement of C8 fails on a connection whose ping fails: the
    instrumentation was attached all the same, before the ping. *)
Lemma newClient_attaches_before_ping :
  let run := newClient sampleUUID (fun _ => downConn) (fun _ => downConn)
               noInstrumentError noInstrumentError sampleMarshal
               false [] newWorld in
  fst run = Returned (None, Some (BackendError "down"))
  /\ List.length (calls (snd run)) = 4%nat
  /\ nth_error (calls (snd run)) 1 = Some (CallInstrumentTracing [])
  /\ nth_error (calls (snd run)) 2 = Some (CallInstrumentMetrics [])
  /\ nth_error (calls (snd run)) 3 = Some CallPing.
Proof. cbv zeta. repeat split. Qed.

(** C8 (amended): construction with the package's options opens the
    connection, then attaches the instrumentation exactly once, then pings:
    the attach comes after the opening and before the ping.  The attach
    installs tracing first and metrics second, metrics only if tracing was
    installed; when either fails construction returns that error and no
    client, and does not ping. *)
Theorem newClient_sequence (uuid : nat -> string)
  (dial : rdb.Options.t -> rdb.UniversalClient)
  (dialCluster : rdb.ClusterOptions.t -> rdb.UniversalClient)
  (tracing metrics :
     option rdb.UniversalClient -> list redisotel.Option_ -> option error)
  (marshal : MarshallerFunc) (cluster : bool) (opts : list Option_)
  (w : World) :
  Forall (builtOption uuid) opts ->
  exists c k opened r w',
    newClient uuid dial dialCluster tracing metrics marshal cluster opts w
    = (Returned r, w')
    /\ opening opened = true
    /\ c.(conn) = Some k
    /\ match tracing (Some k) c.(traceOptions),
             metrics (Some k) c.(meterOptions) with
       | Some e, _ =>
           r = (None, Some e)
           /\ calls w'
              = calls w ++ [opened; CallInstrumentTracing c.(traceOptions)]
       | None, Some e =>
           r = (None, Some e)
           /\ calls w'
              = calls w ++ [opened; CallInstrumentTracing c.(traceOptions);
                            CallInstrumentMetrics c.(meterOptions)]
       | None, None =>
           r = match k.(rdb.Ping) with
               | Some e => (None, Some e)
               | None => (Some c, None)
               end
           /\ calls w'
              = calls w ++ [opened; CallInstrumentTracing c.(traceOptions);
                            CallInstrumentMetrics c.(meterOptions); CallPing]
       end.
Proof.
  intros Hopts. unfold newClient. unfold bind at 1.
  destruct (applyOptions_quiet uuid opts Hopts emptyClient w)
    as (c0 & w0 & Happly & Hcalls0).
  rewrite Happly.
  set (c1 := match marshaller (set_logger _ c0) with
             | Some _ => set_logger _ c0
             | None => set_marshaller (Some marshal) (set_logger _ c0)
             end).
  destruct (getID_quiet uuid c1 w0) as (name & w1 & Hid & Hcalls1).
  unfold bind at 1.
  destruct cluster.
  - unfold bind at 1. rewrite Hid. unfold bind at 1, call at 1, ret at 1.
    cbv beta iota.
    set (k := dialCluster _). set (opened := CallNewClusterClient _).
    unfold bind at 1. rewrite exposeInstrumenting_steps.
    exists (set_conn k c1), k, opened. cbn [conn set_conn traceOptions meterOptions].
    destruct (tracing (Some k) (traceOptions c1)) as [e|].
    + do 2 eexists. repeat split. unfold after; cbn.
      rewrite <- app_assoc, Hcalls1, Hcalls0. reflexivity.
    + destruct (metrics (Some k) (meterOptions c1)) as [e|].
      * do 2 eexists. repeat split. unfold after; cbn.
        rewrite <- app_assoc, Hcalls1, Hcalls0. reflexivity.
      * unfold bind, theConn, call, ret, after; cbn.
        destruct (rdb.Ping k); do 2 eexists; repeat split;
          rewrite <- !app_assoc, Hcalls1, Hcalls0; reflexivity.
  - unfold bind at 1. rewrite Hid. unfold bind at 1, call at 1, ret at 1.
    cbv beta iota.
    set (k := dial _). set (opened := CallNewClient _).
    unfold bind at 1. rewrite exposeInstrumenting_steps.
    exists (set_conn k c1), k, opened. cbn [conn set_conn traceOptions meterOptions].
    destruct (tracing (Some k) (traceOptions c1)) as [e|].
    + do 2 eexists. repeat split. unfold after; cbn.
      rewrite <- app_assoc, Hcalls1, Hcalls0. reflexivity.
    + destruct (metrics (Some k) (meterOptions c1)) as [e|].
      * do 2 eexists. repeat split. unfold after; cbn.
        rewrite <- app_assoc, Hcalls1, Hcalls0. reflexivity.
      * unfold bind, theConn, call, ret, after; cbn.
        destruct (rdb.Ping k); do 2 eexists; repeat split;
          rewrite <- !app_assoc, Hcalls1, Hcalls0; reflexivity.
Qed.

(** C8 (amended) on a single-node construction with a client id and a
    system label. *)
Lemma newClient_sequence_witness :
  exists c k opened r w',
    newClient sampleUUID (fun _ => stubConn) (fun _ => stubConn)
      noInstrumentError noInstrumentError sampleMarshal false
      [WithClientID sampleUUID "svc"; WithDBSystem "redis"] newWorld
    = (Returned r, w')
    /\ opening opened = true
    /\ c.(conn) = Some k
    /\ match noInstrumentError (Some k) c.(traceOptions),
             noInstrumentError (Some k) c.(meterOptions) with
       | Some e, _ =>
           r = (None, Some e)
           /\ calls w'
              = calls newWorld
                ++ [opened; CallInstrumentTracing c.(traceOptions)]
       | None, Some e =>
           r = (None, Some e)
           /\ calls w'
              = calls newWorld
                ++ [opened; CallInstrumentTracing c.(traceOptions);
                    CallInstrumentMetrics c.(meterOptions)]
       | None, None =>
           r = match k.(rdb.Ping) with
               | Some e => (None, Some e)
               | None => (Some c, None)
               end
           /\ calls w'
              = calls newWorld
                ++ [opened; CallInstrumentTracing c.(traceOptions);
                    CallInstrumentMetrics c.(meterOptions); CallPing]
       end.
Proof.
  apply (newClient_sequence sampleUUID (fun _ => stubConn) (fun _ => stubConn)
           noInstrumentError noInstrumentError sampleMarshal false
           [WithClientID sampleUUID "svc"; WithDBSystem "redis"] newWorld).
  repeat constructor.
Defined.

(** The calls of that construction, in order. *)
Example newClient_calls :
  map opening
    (calls (snd (newClient sampleUUID (fun _ => stubConn) (fun _ => stubConn)
                   noInstrumentError noInstrumentError sampleMarshal false
                   [WithClientID sampleUUID "svc"; WithDBSystem "redis"]
                   newWorld)))
  = [true; false; false; false]
  /\ tl (calls (snd (newClient sampleUUID (fun _ => stubConn)
                       (fun _ => stubConn) noInstrumentError noInstrumentError
                       sampleMarshal false
                       [WithClientID sampleUUID "svc"; WithDBSystem "redis"]
                       newWorld)))
     = [CallInstrumentTracing [redisotel.WithDBSystem "redis"];
        CallInstrumentMetrics [redisotel.WithDBSystem "redis"];
        CallPing].
Proof. split; reflexivity. Qed.

(** * Further properties *)

(** ** Addresses and the redirect budget *)

Lemma hasComma_of_list (l : list ascii) :
  Forall (fun a => Ascii.eqb "," a = false) l ->
  hasComma (string_of_list_ascii l) = false.
Proof.
  intros H. unfold hasComma. rewrite list_ascii_of_string_of_list_ascii.
  induction H as [|a l Ha Hl IH]; cbn [existsb]; [reflexivity|].
  rewrite Ha, IH. reflexivity.
Qed.

Lemma genSplit_comma_pieces (s : string) :
  forall cur,
    Forall (fun a => Ascii.eqb "," a = false) cur ->
    Forall (fun p => hasComma p = false) (strings.genSplit "," 0 cur s).
Proof.
  induction s as [|c s IH]; intros cur Hcur; cbn [strings.genSplit].
  - constructor; [|constructor].
    apply hasComma_of_list. apply Forall_rev. exact Hcur.
  - cbn [strings.HasPrefix String.length Nat.pred]. rewrite andb_true_r.
    destruct (Ascii.eqb c ",") eqn:E.
    + constructor.
      * apply hasComma_of_list. apply Forall_rev. exact Hcur.
      * apply IH. constructor.
    + apply IH. constructor; [|exact Hcur].
      rewrite Ascii.eqb_sym. exact E.
Qed.

Lemma len_append (a b : string) : len (a ++ b)%string = len a + len b.
Proof.
  unfold len. induction a as [|c a IH]; cbn [append String.length].
  - reflexivity.
  - rewrite !Nat2Z.inj_succ. lia.
Qed.

Lemma len_concat_comma (l : list string) :
  l <> [] ->
  len (String.concat "," l) = totalBytes l + (len_slice l - 1).
Proof.
  induction l as [|p l IH]; [contradiction|]. intros _.
  destruct l as [|q l].
  - cbn. unfold len_slice. cbn. lia.
  - rewrite concat_cons by discriminate.
    rewrite !len_append, IH by discriminate.
    cbn [totalBytes]. unfold len_slice. cbn [List.length].
    change (len ",") with 1. rewrite !Nat2Z.inj_succ. lia.
Qed.

(** X1: the addresses of the multi-node policy are the pieces of the
    address field between its commas: there is at least one, none holds a
    comma, and joined with commas they give the address field back. *)
Theorem parseClusterConfig_addresses (cfg : Config) :
  let addrs := rdb.ClusterOptions.Addrs (parseClusterConfig cfg) in
  addrs <> []
  /\ Forall (fun a => hasComma a = false) addrs
  /\ String.concat "," addrs = cfg.(Addrs).
Proof.
  cbv zeta. cbn [parseClusterConfig rdb.ClusterOptions.Addrs].
  repeat split.
  - apply Split_comma_not_nil.
  - unfold strings.Split. apply genSplit_comma_pieces. constructor.
  - apply Split_comma_concat.
Qed.

(** X2: with an unset redirect budget (and an address field shorter than
    2^63 - 1 bytes) the budget of the multi-node policy is the number of
    addresses plus the number of bytes of all the addresses together. *)
Theorem parseClusterConfig_budget_formula (cfg : Config) :
  cfg.(MaxRedirects) = 0 ->
  len cfg.(Addrs) + 1 < 2 ^ 63 ->
  rdb.ClusterOptions.MaxRedirects (parseClusterConfig cfg)
  = numberOfAddresses cfg.(Addrs)
    + totalBytes (rdb.ClusterOptions.Addrs (parseClusterConfig cfg)).
Proof.
  intros H0 Hlen.
  rewrite (parseClusterConfig_MaxRedirects cfg H0 Hlen).
  cbn [parseClusterConfig rdb.ClusterOptions.Addrs]. unfold numberOfAddresses.
  rewrite <- (Split_comma_concat cfg.(Addrs)) at 1.
  rewrite len_concat_comma by apply Split_comma_not_nil. lia.
Qed.

(** X2 on three addresses of three bytes each and on the empty address
    field. *)
Lemma parseClusterConfig_budget_formula_witness :
  rdb.ClusterOptions.MaxRedirects
    (parseClusterConfig (withAddrs "a:1,b:2,c:3" 0 defaultConfig))
  = 3 + 9
  /\ rdb.ClusterOptions.MaxRedirects
       (parseClusterConfig (withAddrs "" 0 defaultConfig))
     = 1 + 0.
Proof.
  split.
  - rewrite (parseClusterConfig_budget_formula
               (withAddrs "a:1,b:2,c:3" 0 defaultConfig));
      [reflexivity | reflexivity | vm_compute; reflexivity].
  - rewrite (parseClusterConfig_budget_formula
               (withAddrs "" 0 defaultConfig));
      [reflexivity | reflexivity | vm_compute; reflexivity].
Defined.

(** X3: an explicit redirect budget is never carried into the multi-node
    policy: when the configured budget is not zero the policy's budget is
    zero, and the policy is the same for every such budget. *)
Theorem parseClusterConfig_explicit_budget (cfg : Config) :
  (cfg.(MaxRedirects) <> 0 ->
   rdb.ClusterOptions.MaxRedirects (parseClusterConfig cfg) = 0)
  /\ (forall m1 m2,
        m1 <> 0 -> m2 <> 0 ->
        parseClusterConfig (withAddrs cfg.(Addrs) m1 cfg)
        = parseClusterConfig (withAddrs cfg.(Addrs) m2 cfg)).
Proof.
  split.
  - intros H. cbn [parseClusterConfig rdb.ClusterOptions.MaxRedirects].
    apply Z.eqb_neq in H. rewrite H. reflexivity.
  - intros m1 m2 H1 H2. unfold parseClusterConfig. cbn.
    apply Z.eqb_neq in H1, H2. rewrite H1, H2. reflexivity.
Qed.

(** X3 on the budgets 5 and 16. *)
Lemma parseClusterConfig_explicit_budget_witness :
  rdb.ClusterOptions.MaxRedirects
    (parseClusterConfig (withAddrs "a:1,b:2" 5 defaultConfig)) = 0
  /\ parseClusterConfig (withAddrs "a:1,b:2" 5 defaultConfig)
     = parseClusterConfig (withAddrs "a:1,b:2" 16 defaultConfig).
Proof.
  split.
  - apply (parseClusterConfig_explicit_budget
             (withAddrs "a:1,b:2" 5 defaultConfig)).
    cbn. discriminate.
  - apply (proj2 (parseClusterConfig_explicit_budget
                    (withAddrs "a:1,b:2" 5 defaultConfig)) 5 16);
      discriminate.
Defined.

(** X4: the address of the single-node policy is the part of the address
    field before its first comma, the whole field if it holds none; it is
    the first address of the multi-node policy of the same configuration. *)
Theorem parseClientConfig_first_piece (cfg : Config) :
  let addr := rdb.Options.Addr (parseClientConfig cfg) in
  hasComma addr = false
  /\ (cfg.(Addrs) = addr
      \/ exists rest, cfg.(Addrs) = (addr ++ "," ++ rest)%string)
  /\ (hasComma cfg.(Addrs) = false -> addr = cfg.(Addrs))
  /\ hd_error (rdb.ClusterOptions.Addrs (parseClusterConfig cfg)) = Some addr.
Proof.
  cbv zeta. unfold parseClientConfig.
  cbn [rdb.Options.Addr parseClusterConfig rdb.ClusterOptions.Addrs].
  pose proof (Split_comma_not_nil cfg.(Addrs)) as Hne.
  pose proof (Split_comma_concat cfg.(Addrs)) as Hcat.
  assert (Hpieces : Forall (fun p => hasComma p = false)
                      (strings.Split cfg.(Addrs) ","))
    by (unfold strings.Split; apply genSplit_comma_pieces; constructor).
  destruct (strings.Split cfg.(Addrs) ",") as [|a rest] eqn:E;
    [contradiction|].
  unfold len_slice. cbn [List.length hd hd_error].
  replace (0 <? Z.of_nat (S (List.length rest))) with true
    by (symmetry; apply Z.ltb_lt; lia).
  inversion Hpieces as [|? ? Ha Hrest]; subst.
  assert (Hshape : cfg.(Addrs) = a
                   \/ exists r, cfg.(Addrs) = (a ++ "," ++ r)%string).
  { destruct rest as [|b rest].
    - left. symmetry. exact Hcat.
    - right. exists (String.concat "," (b :: rest)).
      rewrite <- Hcat. apply concat_cons. discriminate. }
  repeat split; auto.
  intros Hno. destruct Hshape as [Hs | [r Hs]]; [symmetry; exact Hs|].
  exfalso. rewrite Hs in Hno. clear - Hno.
  unfold hasComma in Hno.
  induction a as [|c a IH]; cbn in Hno.
  - discriminate.
  - apply orb_false_iff in Hno as [_ Hno]. apply IH. exact Hno.
Qed.

(** X4 on a field of three addresses and on a field of one. *)
Lemma parseClientConfig_first_piece_witness :
  rdb.Options.Addr (parseClientConfig (withAddrs "a:1,b:2,c:3" 0 defaultConfig))
  = "a:1"%string
  /\ rdb.Options.Addr (parseClientConfig defaultConfig)
     = "127.0.0.1:6379"%string.
Proof.
  split.
  - reflexivity.
  - apply (parseClientConfig_first_piece defaultConfig). reflexivity.
Defined.

(** X5: multi-node resolution copies the three routing flags and every
    field it shares with the configuration as they are, the protocol version
    only when it is positive (zero otherwise); the policy does not depend on
    the network kind, the database index or the RESP3 flag of the
    configuration. *)
Theorem parseClusterConfig_resolution (cfg : Config) :
  let o := parseClusterConfig cfg in
  o.(rdb.ClusterOptions.ReadOnly) = cfg.(ReadOnly)
  /\ o.(rdb.ClusterOptions.RouteByLatency) = cfg.(RouteByLatency)
  /\ o.(rdb.ClusterOptions.RouteRandomly) = cfg.(RouteRandomly)
  /\ o.(rdb.ClusterOptions.Protocol)
     = (if 0 <? cfg.(Protocol) then cfg.(Protocol) else 0)
  /\ o.(rdb.ClusterOptions.Username) = cfg.(Username)
  /\ o.(rdb.ClusterOptions.Password) = cfg.(Password)
  /\ o.(rdb.ClusterOptions.MaxRetries) = cfg.(MaxRetries)
  /\ o.(rdb.ClusterOptions.MinRetryBackoff) = cfg.(MinRetryBackoff)
  /\ o.(rdb.ClusterOptions.MaxRetryBackoff) = cfg.(MaxRetryBackoff)
  /\ o.(rdb.ClusterOptions.DialTimeout) = cfg.(DialTimeout)
  /\ o.(rdb.ClusterOptions.ReadTimeout) = cfg.(ReadTimeout)
  /\ o.(rdb.ClusterOptions.WriteTimeout) = cfg.(WriteTimeout)
  /\ o.(rdb.ClusterOptions.ContextTimeoutEnabled) = cfg.(ContextTimeoutEnabled)
  /\ o.(rdb.ClusterOptions.PoolFIFO) = cfg.(PoolFIFO)
  /\ o.(rdb.ClusterOptions.PoolSize) = cfg.(PoolSize)
  /\ o.(rdb.ClusterOptions.PoolTimeout) = cfg.(PoolTimeout)
  /\ o.(rdb.ClusterOptions.MinIdleConns) = cfg.(MinIdleConns)
  /\ o.(rdb.ClusterOptions.MaxIdleConns) = cfg.(MaxIdleConns)
  /\ o.(rdb.ClusterOptions.MaxActiveConns) = cfg.(MaxActiveConns)
  /\ o.(rdb.ClusterOptions.ConnMaxIdleTime) = cfg.(ConnMaxIdleTime)
  /\ o.(rdb.ClusterOptions.ConnMaxLifetime) = cfg.(ConnMaxLifetime)
  /\ o.(rdb.ClusterOptions.DisableIndentity) = cfg.(DisableIndentity)
  /\ (forall network db resp3,
        parseClusterConfig (withSingleNodeFields network db resp3 cfg) = o).
Proof. cbv zeta. repeat split. Qed.

(** ** Options *)

(** An option built from a nil or empty argument changes nothing: the
    client stays as it is, no token is drawn and no call is made. *)
Theorem empty_options_change_nothing (uuid : nat -> string) (c : Client)
  (w : World) :
  WithLogger None c w = (Returned c, w)
  /\ WithConfig None c w = (Returned c, w)
  /\ WithClientID uuid "" c w = (Returned c, w)
  /\ WithIdentitySuffix "" c w = (Returned c, w)
  /\ WithMarshaller None c w = (Returned c, w)
  /\ WithTLS None c w = (Returned c, w)
  /\ WithLimiter None c w = (Returned c, w)
  /\ WithMeterProvider None c w = (Returned c, w)
  /\ WithTraceProvider None c w = (Returned c, w)
  /\ WithDBSystem "" c w = (Returned c, w).
Proof. repeat split. Qed.




(** ** Construction, step by step *)

Lemma getID_run (uuid : nat -> string) (c : Client) (w : World) :
  getID uuid c w = (Returned (connectionName uuid c w), afterName c w).
Proof.
  unfold getID, connectionName, afterName.
  destruct (String.eqb (id c) ""); reflexivity.
Qed.

(** The run of [newClient] once the options are applied. *)
Lemma newClient_run (uuid : nat -> string)
  (dial : rdb.Options.t -> rdb.UniversalClient)
  (dialCluster : rdb.ClusterOptions.t -> rdb.UniversalClient)
  (tracing metrics :
     option rdb.UniversalClient -> list redisotel.Option_ -> option error)
  (marshal : MarshallerFunc) (cluster : bool) (opts : list Option_)
  (w : World) (c0 : Client) (w0 : World) :
  applyOptions opts emptyClient w = (Returned c0, w0) ->
  let c1 := prepared marshal c0 in
  let name := connectionName uuid c1 w0 in
  let k := opened dial dialCluster cluster name c1 in
  let c := set_conn k c1 in
  let w1 := afterName c1 w0 in
  let open := openingCall cluster name c1 in
  let attachT := CallInstrumentTracing c1.(traceOptions) in
  let attachM := CallInstrumentMetrics c1.(meterOptions) in
  newClient uuid dial dialCluster tracing metrics marshal cluster opts w
  = match tracing (Some k) c1.(traceOptions) with
    | Some e => (Returned (None, Some e), after w1 [open; attachT])
    | None =>
        match metrics (Some k) c1.(meterOptions) with
        | Some e => (Returned (None, Some e), after w1 [open; attachT; attachM])
        | None =>
            (Returned match k.(rdb.Ping) with
                      | Some e => (None, Some e)
                      | None => (Some c, None)
                      end,
             after w1 [open; attachT; attachM; CallPing])
        end
    end.
Proof.
  intros Happly. cbv zeta. unfold newClient. unfold bind at 1.
  rewrite Happly. fold (prepared marshal c0).
  set (c1 := prepared marshal c0).
  unfold bind at 1.
  destruct cluster; unfold bind at 1; rewrite getID_run;
    unfold bind at 1, call at 1, ret at 1; cbv beta iota;
    unfold bind at 1; rewrite exposeInstrumenting_steps;
    unfold opened, openingCall;
    cbn [conn set_conn traceOptions meterOptions];
    (destruct (tracing _ _) as [e|];
     [ unfold after; cbn; rewrite <- !app_assoc; reflexivity |]);
    (destruct (metrics _ _) as [e|];
     [ unfold after; cbn; rewrite <- !app_assoc; reflexivity |]);
    unfold bind, theConn, call, ret; cbn [conn set_conn];
    destruct (rdb.Ping _); unfold after; cbn;
    rewrite <- !app_assoc; reflexivity.
Qed.

Lemma prepared_fields (marshal : MarshallerFunc) (c : Client) :
  let p := prepared marshal c in
  id p = id c /\ cfg p = cfg c /\ tls p = tls c /\ limiter p = limiter c
  /\ conn p = conn c /\ suffix p = suffix c
  /\ traceOptions p = traceOptions c /\ meterOptions p = meterOptions c
  /\ logger p = logger c ++ [("component", "redis")]
  /\ marshaller p = match marshaller c with
                    | Some f => Some f
                    | None => Some marshal
                    end.
Proof.
  destruct c as [i s k cf t lg lim [f|] mo tr]; cbv zeta; unfold prepared;
    cbn; repeat split.
Qed.

(** X7: construction is all or nothing, and the first failing step decides:
    it returns the client and no error exactly when tracing attaches,
    metrics attach and the ping succeeds; otherwise it returns no client
    and the error of the first of these three steps that fails. *)
Theorem newClient_all_or_nothing (uuid : nat -> string)
  (dial : rdb.Options.t -> rdb.UniversalClient)
  (dialCluster : rdb.ClusterOptions.t -> rdb.UniversalClient)
  (tracing metrics :
     option rdb.UniversalClient -> list redisotel.Option_ -> option error)
  (marshal : MarshallerFunc) (cluster : bool) (opts : list Option_)
  (w : World) (c0 : Client) (w0 : World) :
  applyOptions opts emptyClient w = (Returned c0, w0) ->
  let c1 := prepared marshal c0 in
  let k := opened dial dialCluster cluster (connectionName uuid c1 w0) c1 in
  let r := fst (newClient uuid dial dialCluster tracing metrics marshal
                  cluster opts w) in
  let stepT := tracing (Some k) c1.(traceOptions) in
  let stepM := metrics (Some k) c1.(meterOptions) in
  ((stepT = None /\ stepM = None /\ k.(rdb.Ping) = None)
   <-> r = Returned (Some (set_conn k c1), None))
  /\ (forall e, stepT = Some e -> r = Returned (None, Some e))
  /\ (forall e, stepT = None -> stepM = Some e -> r = Returned (None, Some e))
  /\ (forall e, stepT = None -> stepM = None -> k.(rdb.Ping) = Some e ->
      r = Returned (None, Some e))
  /\ ((exists c, r = Returned (Some c, None))
      \/ (exists e, r = Returned (None, Some e))).
Proof.
  intros Happly. cbv zeta.
  rewrite (newClient_run uuid dial dialCluster tracing metrics marshal cluster
             opts w c0 w0 Happly).
  cbv zeta.
  destruct (tracing _ _) as [eT|]; [|destruct (metrics _ _) as [eM|];
    [|destruct (rdb.Ping _) as [eP|]]]; cbn [fst];
    repeat match goal with |- _ /\ _ => split end;
    try (intros e; intros; congruence);
    try (right; eexists; reflexivity);
    try (left; eexists; reflexivity);
    try (split; [intros (H1 & H2 & H3); discriminate | discriminate]);
    try (split; [reflexivity | repeat split]).
Qed.

(** X7 at an instrumentation whose tracing step fails. *)
Lemma newClient_all_or_nothing_witness :
  fst (newClient sampleUUID (fun _ => stubConn) (fun _ => stubConn)
         failingTracing noInstrumentError sampleMarshal false [] newWorld)
  = Returned (None, Some (BackendError "tracing")).
Proof.
  pose proof (newClient_all_or_nothing sampleUUID (fun _ => stubConn)
                (fun _ => stubConn) failingTracing noInstrumentError
                sampleMarshal false [] newWorld emptyClient newWorld eq_refl)
    as (_ & Hfail & _).
  apply Hfail. reflexivity.
Defined.





(** ** Reads *)

(** X10: [HGet] answers [ErrKeyNotFound] when the error of the reply is the
    missing-value sentinel [rdb.Nil] or unwraps to it, a missing field and a
    missing key alike; any other error of the reply is answered unchanged,
    and a reply without error gives the value and no error.  One command is
    sent in each case. *)
Theorem HGet_not_found (c : Client) (k : rdb.UniversalClient)
  (key field : string) :
  let reply := (k.(rdb.HGet) key field).(rdb.Scan) in
  let run := ClientCommands.HGet (set_conn k c) key field in
  (forall err,
      reply = inr err -> errors.Is err rdb.Nil = true ->
      run = (Returned (None, Some ErrKeyNotFound), [SentHGet key field]))
  /\ (forall err,
      reply = inr err -> errors.Is err rdb.Nil = false ->
      run = (Returned (None, Some err), [SentHGet key field]))
  /\ (forall v,
      reply = inl v ->
      run = (Returned (Some v, None), [SentHGet key field])).
Proof.
  cbv zeta. unfold ClientCommands.HGet. cbn [conn set_conn].
  repeat split.
  - intros err Hr His. rewrite Hr, His. reflexivity.
  - intros err Hr His. rewrite Hr, His. reflexivity.
  - intros v Hr. rewrite Hr. reflexivity.
Qed.

(** X10 at a missing field and at a stored one. *)
Lemma HGet_not_found_witness :
  ClientCommands.HGet
    (set_conn (doubleConn (errStringCmd rdb.Nil) [] ([], None) None)
       emptyClient) "h" "f"
  = (Returned (None, Some ErrKeyNotFound), [SentHGet "h" "f"])
  /\ ClientCommands.HGet (set_conn stubConn emptyClient) "h" "f"
     = (Returned (Some (VString "v"), None), [SentHGet "h" "f"]).
Proof.
  split.
  - apply (HGet_not_found emptyClient
             (doubleConn (errStringCmd rdb.Nil) [] ([], None) None) "h" "f")
      with (err := rdb.Nil); reflexivity.
  - apply (HGet_not_found emptyClient stubConn "h" "f"). reflexivity.
Defined.

Lemma KeyNotFound_is_not_Nil : errors.Is ErrKeyNotFound rdb.Nil = false.
Proof. reflexivity. Qed.

(** X11: the missing-value sentinel never leaves the reading methods as an
    error: whatever the connection answers, an error returned by [Get],
    [HGet] or a typed reader is not [rdb.Nil] and does not unwrap to it. *)
Theorem readers_never_return_Nil (c : Client) (k : rdb.UniversalClient)
  (key field : string) (w : World) (e : error) :
  (forall v,
      fst (Client.Get (set_conn k c) key w) = Returned (v, Some e) ->
      errors.Is e rdb.Nil = false)
  /\ (forall v,
        fst (ClientCommands.HGet (set_conn k c) key field)
        = Returned (v, Some e) ->
        errors.Is e rdb.Nil = false)
  /\ (forall val found,
        fst (Client.Bool (set_conn k c) key w) = Returned (val, found, Some e)
        -> errors.Is e rdb.Nil = false)
  /\ (forall val found,
        fst (Client.Bytes (set_conn k c) key w) = Returned (val, found, Some e)
        -> errors.Is e rdb.Nil = false)
  /\ (forall val found,
        fst (Client.Float64 (set_conn k c) key w) = Returned (val, found, Some e)
        -> errors.Is e rdb.Nil = false)
  /\ (forall val found,
        fst (Client.Int (set_conn k c) key w) = Returned (val, found, Some e)
        -> errors.Is e rdb.Nil = false)
  /\ (forall val found,
        fst (Client.Int64 (set_conn k c) key w) = Returned (val, found, Some e)
        -> errors.Is e rdb.Nil = false)
  /\ (forall val found,
        fst (Client.Uint64 (set_conn k c) key w) = Returned (val, found, Some e)
        -> errors.Is e rdb.Nil = false)
  /\ (forall val found,
        fst (Client.String (set_conn k c) key w) = Returned (val, found, Some e)
        -> errors.Is e rdb.Nil = false).
Proof.
  repeat match goal with |- _ /\ _ => split end.
  - intros v0. unfold Client.Get. run.
    destruct (rdb.Scan (rdb.Get k key)) as [v|err]; cbn; [discriminate|].
    destruct (errors.Is err rdb.Nil) eqn:E; cbn; intros H; inversion H; subst.
    + reflexivity.
    + exact E.
  - intros v0. unfold ClientCommands.HGet. cbn [conn set_conn].
    destruct (rdb.Scan (rdb.HGet k key field)) as [v|err]; cbn;
      [discriminate|].
    destruct (errors.Is err rdb.Nil) eqn:E; cbn; intros H; inversion H; subst.
    + reflexivity.
    + exact E.
  - intros val found. unfold Client.Bool. run.
    destruct (rdb.Bool (rdb.Get k key)) as [v [err|]]; cbn;
      [|discriminate].
    destruct (errors.Is err rdb.Nil) eqn:E; cbn; intros H; inversion H; subst.
    exact E.
  - intros val found. unfold Client.Bytes. run.
    destruct (rdb.Bytes (rdb.Get k key)) as [v [err|]]; cbn;
      [|discriminate].
    destruct (errors.Is err rdb.Nil) eqn:E; cbn; intros H; inversion H; subst.
    exact E.
  - intros val found. unfold Client.Float64. run.
    destruct (rdb.Float64 (rdb.Get k key)) as [v [err|]]; cbn;
      [|discriminate].
    destruct (errors.Is err rdb.Nil) eqn:E; cbn; intros H; inversion H; subst.
    exact E.
  - intros val found. unfold Client.Int. run.
    destruct (rdb.Int (rdb.Get k key)) as [v [err|]]; cbn;
      [|discriminate].
    destruct (errors.Is err rdb.Nil) eqn:E; cbn; intros H; inversion H; subst.
    exact E.
  - intros val found. unfold Client.Int64. run.
    destruct (rdb.Int64 (rdb.Get k key)) as [v [err|]]; cbn;
      [|discriminate].
    destruct (errors.Is err rdb.Nil) eqn:E; cbn; intros H; inversion H; subst.
    exact E.
  - intros val found. unfold Client.Uint64. run.
    destruct (rdb.Uint64 (rdb.Get k key)) as [v [err|]]; cbn;
      [|discriminate].
    destruct (errors.Is err rdb.Nil) eqn:E; cbn; intros H; inversion H; subst.
    exact E.
  - intros val found. unfold Client.String. run.
    destruct (rdb.Result (rdb.Get k key)) as [v [err|]]; cbn;
      [|discriminate].
    destruct (errors.Is err rdb.Nil) eqn:E; cbn; intros H; inversion H; subst.
    exact E.
Qed.

(** X11 at a reply that fails with a wrapped sentinel and at one that fails
    with a timeout. *)
Lemma readers_never_return_Nil_witness :
  errors.Is ErrKeyNotFound rdb.Nil = false
  /\ errors.Is (BackendError "timeout") rdb.Nil = false.
Proof.
  split.
  - apply (proj1 (readers_never_return_Nil emptyClient
             (doubleConn (errStringCmd (Wrap "get" rdb.Nil)) [] ([], None) None)
             "x" "f" newWorld ErrKeyNotFound) None).
    reflexivity.
  - apply (proj1 (proj2 (proj2 (readers_never_return_Nil emptyClient
             (doubleConn (errStringCmd (BackendError "timeout")) []
                ([], None) None)
             "x" "f" newWorld (BackendError "timeout")))) false false).
    reflexivity.
Defined.

(** X12: [HGetAll] answers an error of the reply as it is, before it looks
    at the fields: also the sentinel [rdb.Nil], which it does not turn into
    [ErrKeyNotFound], and also when the reply holds no field.  A reply
    without error that holds a field gives what scanning it into the
    destination gives. *)
Theorem HGetAll_reply (c : Client) (k : rdb.UniversalClient) (key : string)
  (w : World) :
  let res := k.(rdb.HGetAll) key in
  let run := Client.HGetAll (set_conn k c) key w in
  (forall err,
      res.(rdb.MapErr) = Some err ->
      run = (Returned (None, Some err), after w [CallHGetAll key]))
  /\ (res.(rdb.MapErr) = None -> res.(rdb.MapVal) <> [] ->
      run = (Returned match res.(rdb.MapScan) with
                      | inl v => (Some v, None)
                      | inr err => (None, Some err)
                      end,
             after w [CallHGetAll key])).
Proof.
  cbv zeta. unfold Client.HGetAll. run. split.
  - intros err He. rewrite He. reflexivity.
  - intros He Hv. rewrite He.
    destruct (rdb.MapVal (rdb.HGetAll k key)) as [|p l]; [contradiction|].
    unfold len_slice. cbn [List.length].
    replace (Z.of_nat (S (List.length l)) =? 0) with false
      by (symmetry; apply Z.eqb_neq; lia).
    destruct (rdb.MapScan _); reflexivity.
Qed.

(** X12 at a hash with one field. *)
Lemma HGetAll_reply_witness :
  Client.HGetAll (set_conn stubConn emptyClient) "h" newWorld
  = (Returned (Some VNil, None), after newWorld [CallHGetAll "h"]).
Proof.
  apply (HGetAll_reply emptyClient stubConn "h" newWorld);
    [reflexivity | discriminate].
Defined.

(** X13: [Exists] sends one command and answers true exactly when the reply
    carries no error and counts one key; an error of the reply is answered
    with false. *)
Theorem Exists_one (c : Client) (k : rdb.UniversalClient) (cmds : Cmdable.t)
  (key : string) :
  exists found,
    ClientCommands.Exists (set_conn k c) cmds key
    = (Returned (found, snd (cmds.(Cmdable.Exists) key)), [SentExists key])
    /\ (found = true
        <-> snd (cmds.(Cmdable.Exists) key) = None
            /\ fst (cmds.(Cmdable.Exists) key) = 1).
Proof.
  unfold ClientCommands.Exists. cbn [conn set_conn].
  destruct (Cmdable.Exists cmds key) as [n [err|]]; cbn [fst snd].
  - exists false. split; [reflexivity|].
    split; [discriminate | intros [H _]; discriminate H].
  - exists (n =? 1). split; [reflexivity|].
    rewrite Z.eqb_eq. tauto.
Qed.

(** ** Writes of plain values *)

(** X14: [SetStruct] marshals before it touches the connection.  When the
    marshaller fails its error is returned as it is and no command is sent,
    on any client, connected or not; when it succeeds [SetStruct] does what
    [Set] does with the marshalled bytes as the value. *)
Theorem SetStruct_marshals_first (c : Client) (marshal : MarshallerFunc)
  (cmds : Cmdable.t) (key : string) (val : GoValue) (expiration : Z) :
  (forall b err,
      marshal val = (b, Some err) ->
      ClientCommands.SetStruct (set_marshaller (Some marshal) c) cmds key val
        expiration
      = (Returned (Some err), []))
  /\ (forall b,
      marshal val = (b, None) ->
      ClientCommands.SetStruct (set_marshaller (Some marshal) c) cmds key val
        expiration
      = ClientCommands.Set_ c cmds key (bytesValue b) expiration).
Proof.
  unfold ClientCommands.SetStruct, ClientCommands.Set_.
  cbn [marshaller set_marshaller conn]. split.
  - intros b err H. rewrite H. reflexivity.
  - intros b H. rewrite H. destruct (conn c); reflexivity.
Qed.

(** X14 at a failing marshaller on a client without connection, and at a
    marshaller that succeeds on a connected client. *)
Lemma SetStruct_marshals_first_witness :
  ClientCommands.SetStruct (set_marshaller (Some failingMarshal) emptyClient)
    sampleCmdable "k" (VString "v") 0
  = (Returned (Some (BackendError "unsupported type")), [])
  /\ ClientCommands.SetStruct
       (set_marshaller (Some sampleMarshal) (set_conn stubConn emptyClient))
       sampleCmdable "k" (VString "v") 0
     = (Returned None, [SentSet "k" (bytesValue []) 0]).
Proof.
  split.
  - apply (proj1 (SetStruct_marshals_first emptyClient failingMarshal
                    sampleCmdable "k" (VString "v") 0) []).
    reflexivity.
  - rewrite (proj2 (SetStruct_marshals_first (set_conn stubConn emptyClient)
                      sampleMarshal sampleCmdable "k" (VString "v") 0) []).
    + reflexivity.
    + reflexivity.
Defined.

(** X15: on a client that construction returned, [SetStruct], [Set],
    [Exists] and [HGet] return and do not panic: the connection is there,
    and so is a marshaller. *)
Theorem commands_after_newClient (uuid : nat -> string)
  (dial : rdb.Options.t -> rdb.UniversalClient)
  (dialCluster : rdb.ClusterOptions.t -> rdb.UniversalClient)
  (tracing metrics :
     option rdb.UniversalClient -> list redisotel.Option_ -> option error)
  (marshal : MarshallerFunc) (cluster : bool) (opts : list Option_)
  (w : World) (c : Client) (w' : World) (cmds : Cmdable.t)
  (key field : string) (val : GoValue) (expiration : Z) :
  Forall (builtOption uuid) opts ->
  newClient uuid dial dialCluster tracing metrics marshal cluster opts w
  = (Returned (Some c, None), w') ->
  (exists r sent,
      ClientCommands.SetStruct c cmds key val expiration = (Returned r, sent))
  /\ (exists r sent,
      ClientCommands.Set_ c cmds key val expiration = (Returned r, sent))
  /\ (exists r sent, ClientCommands.Exists c cmds key = (Returned r, sent))
  /\ (exists r sent, ClientCommands.HGet c key field = (Returned r, sent)).
Proof.
  intros Hopts Hrun.
  destruct (applyOptions_quiet uuid opts Hopts emptyClient w)
    as (c0 & w0 & Happly & _).
  rewrite (newClient_run uuid dial dialCluster tracing metrics marshal cluster
             opts w c0 w0 Happly) in Hrun.
  cbv zeta in Hrun.
  destruct (prepared_fields marshal c0)
    as (_ & _ & _ & _ & _ & _ & _ & _ & _ & Hmar).
  set (c1 := prepared marshal c0) in *.
  destruct (tracing _ _) as [eT|]; [discriminate|].
  destruct (metrics _ _) as [eM|]; [discriminate|].
  destruct (rdb.Ping _) as [eP|]; [discriminate|].
  inversion Hrun; subst c w'. clear Hrun.
  unfold ClientCommands.SetStruct, ClientCommands.Set_, ClientCommands.Exists,
    ClientCommands.HGet.
  cbn [conn set_conn marshaller]. rewrite Hmar.
  repeat split.
  - destruct (marshaller c0) as [f|].
    + destruct (f val) as [b [e|]]; do 2 eexists; reflexivity.
    + destruct (marshal val) as [b [e|]]; do 2 eexists; reflexivity.
  - do 2 eexists; reflexivity.
  - destruct (snd (Cmdable.Exists cmds key)); do 2 eexists; reflexivity.
  - destruct (rdb.Scan _) as [v|e];
      [|destruct (errors.Is e rdb.Nil)]; do 2 eexists; reflexivity.
Qed.

(** X15 on a construction without options. *)
Lemma commands_after_newClient_witness :
  exists c w',
    newClient sampleUUID (fun _ => stubConn) (fun _ => stubConn)
      noInstrumentError noInstrumentError sampleMarshal false [] newWorld
    = (Returned (Some c, None), w')
    /\ exists r sent,
         ClientCommands.SetStruct c sampleCmdable "k" (VString "v") 0
         = (Returned r, sent).
Proof.
  do 2 eexists. split.
  - cbv. reflexivity.
  - apply (commands_after_newClient sampleUUID (fun _ => stubConn)
             (fun _ => stubConn) noInstrumentError noInstrumentError
             sampleMarshal false [] newWorld _ _ sampleCmdable "k" "f"
             (VString "v") 0 (Forall_nil _) eq_refl).
Defined.

(** ** Hash writes, further *)

(** X16: [HSet] accepts exactly booleans, numbers and strings.  On such a
    value it queues the field write and then the expiry and executes the two
    as one batch, whatever the ttl; on every other value, the nil value and
    unsafe pointers included, it returns [ErrInvalidFieldType] with the
    batch opened and nothing queued. *)
Theorem HSet_shapes (c : Client) (k : rdb.UniversalClient)
  (key field : string) (value : GoValue) (ttl : Z) (w : World) :
  let batch := [rdb.CmdHSet key field value; rdb.CmdExpire key ttl] in
  Client.HSet (set_conn k c) key field value ttl w
  = match toAny value with
    | VBool _ | VNumber _ _ | VString _ =>
        (Returned (inspected k batch),
         after w [CallTxPipeline; CallPipeHSet key field value;
                  CallPipeExpire key ttl; CallExec batch])
    | _ => (Returned (Some ErrInvalidFieldType), after w [CallTxPipeline])
    end.
Proof.
  cbv zeta.
  assert (Hbad : invalidFieldKind
                   (Reflection.Kind (Reflection.ValueOf value)) = true ->
                 Client.HSet (set_conn k c) key field value ttl w
                 = (Returned (Some ErrInvalidFieldType),
                    after w [CallTxPipeline])).
  { intros H. unfold Client.HSet. run. rewrite H. reflexivity. }
  unfold Reflection.Kind, Reflection.ValueOf in Hbad.
  cbn [Reflection.target] in Hbad.
  pose proof (HSet_accepted c k key field value ttl w) as Hgood.
  cbv zeta in Hgood.
  unfold Reflection.Kind, Reflection.ValueOf in Hgood.
  cbn [Reflection.target] in Hgood.
  destruct (toAny value) eqn:E;
    try (apply Hbad; reflexivity);
    try (apply Hgood; reflexivity).
  - apply Hgood. destruct k0; reflexivity.
  - exfalso. exact (toAny_not_interface value _ E).
Qed.

(** The panic of the loop of [HSetObject] on an unexported tagged field is
    the same wherever the field stands. *)
Lemma hsetObjectLoop_unexported_uniform (key : string)
  (f : reflect.StructField) (x : GoValue) :
  tagged f = true ->
  invalidFieldKind
    (Reflection.Kind {| Reflection.target := x; Reflection.flagRO := false |})
  = false ->
  reflect.IsExported f = false ->
  exists msg,
    forall pre rest indices queue w,
      hsetObjectLoop (structType (pre ++ (f, x) :: rest))
        (structValue (pre ++ (f, x) :: rest)) key
        (List.length pre :: indices) queue w
      = (Panicked msg, w).
Proof.
  intros Ht Hk He.
  assert (Hi : exists msg,
             Reflection.Interface
               {| Reflection.target := x;
                  Reflection.flagRO := false || negb (reflect.IsExported f) |}
             = Panicked msg).
  { unfold Reflection.Interface. cbn [Reflection.target Reflection.flagRO].
    rewrite He. cbn [negb orb]. destruct x; eexists; reflexivity. }
  destruct Hi as [msg Hi]. exists msg.
  intros pre rest indices queue w.
  cbn [hsetObjectLoop]. unfold bind at 1, lift at 1.
  rewrite TypeField_struct.
  unfold tagged in Ht.
  destruct (reflect.Lookup (reflect.Tag f) "redis") as [tagValue ok].
  cbn [fst snd] in Ht. rewrite Ht.
  unfold bind, lift. rewrite !Field_struct.
  unfold Reflection.Kind in Hk |- *. cbn [Reflection.target] in Hk |- *.
  rewrite Hk, Hi. reflexivity.
Qed.

(** The loop of [HSetObject] stops at the first tagged field of refused
    kind, with the writes of the fields before it queued. *)
Lemma hsetObjectLoop_stops (key : string)
  (good : list (reflect.StructField * GoValue)) (f : reflect.StructField)
  (x : GoValue) (rest : list (reflect.StructField * GoValue)) :
  Forall (fun fx => tagged (fst fx) = true -> accepted fx = true) good ->
  tagged f = true ->
  invalidFieldKind
    (Reflection.Kind {| Reflection.target := x; Reflection.flagRO := false |})
  = true ->
  forall pre queue w,
    hsetObjectLoop (structType (pre ++ good ++ (f, x) :: rest))
      (structValue (pre ++ good ++ (f, x) :: rest)) key
      (seq (List.length pre) (List.length (good ++ (f, x) :: rest))) queue w
    = (Returned (inl ErrInvalidFieldType),
       after w (map queueing (fieldWrites key good))).
Proof.
  intros Hall Ht Hk.
  induction Hall as [|[g y] good Hg Hgood IH]; intros pre queue w.
  - cbn [app List.length seq fieldWrites map].
    rewrite hsetObjectLoop_refuse by assumption.
    rewrite after_nil. reflexivity.
  - cbn [fst] in Hg. cbn [app List.length seq fieldWrites].
    destruct (tagged g) eqn:Hgt.
    + rewrite hsetObjectLoop_queue by auto.
      rewrite middle_app, <- (length_snoc pre (g, y)).
      rewrite IH. rewrite after_after. reflexivity.
    + rewrite hsetObjectLoop_skip by assumption.
      rewrite middle_app, <- (length_snoc pre (g, y)).
      apply IH.
Qed.

(** X17: [HSetObject] gives up at the first tagged field of refused shape:
    when the tagged fields before it are accepted it returns
    [ErrInvalidFieldType] whatever the fields after it are; the writes of
    the fields before it were queued, but no expiry is queued and no batch
    is executed. *)
Theorem HSetObject_refused_field (c : Client) (k : rdb.UniversalClient)
  (key : string) (data : GoValue)
  (good : list (reflect.StructField * GoValue)) (f : reflect.StructField)
  (x : GoValue) (rest : list (reflect.StructField * GoValue)) (ttl : Z)
  (w : World) :
  toAny data = VStruct (good ++ (f, x) :: rest) ->
  Forall (fun fx => tagged (fst fx) = true -> accepted fx = true) good ->
  tagged f = true ->
  invalidFieldKind
    (Reflection.Kind {| Reflection.target := x; Reflection.flagRO := false |})
  = true ->
  Client.HSetObject (set_conn k c) key data ttl w
  = (Returned (Some ErrInvalidFieldType),
     after w (CallTxPipeline :: map queueing (fieldWrites key good))).
Proof.
  intros Hs Hall Ht Hk.
  rewrite (HSetObject_struct c k key data _ ttl w Hs).
  pose proof (hsetObjectLoop_stops key good f x rest Hall Ht Hk [] []
                (after w [CallTxPipeline])) as Hloop.
  cbn [app List.length] in Hloop. rewrite Hloop.
  rewrite after_after. reflexivity.
Qed.

(** X17 on a struct whose second tagged field is a slice. *)
Lemma HSetObject_refused_field_witness :
  Client.HSetObject (set_conn stubConn emptyClient) "k" sliceObject 60 newWorld
  = (Returned (Some ErrInvalidFieldType),
     after newWorld
       [CallTxPipeline; CallPipeHSet "k" "id" (VNumber reflect.NInt 7)]).
Proof.
  apply (HSetObject_refused_field emptyClient stubConn "k" sliceObject
           [ ({| reflect.Name := "ID"; reflect.PkgPath := "";
                 reflect.Tag := [("redis", "id")] |}, VNumber reflect.NInt 7) ]
           {| reflect.Name := "Tags"; reflect.PkgPath := "";
              reflect.Tag := [("redis", "tags")] |}
           (VSlice [VString "a"])
           [ ({| reflect.Name := "Name"; reflect.PkgPath := "";
                 reflect.Tag := [("redis", "name")] |}, VString "bob") ]
           60 newWorld eq_refl).
  - repeat constructor.
  - reflexivity.
  - reflexivity.
Defined.

Lemma hsetObjectLoop_filter (key : string)
  (rest : list (reflect.StructField * GoValue)) :
  forall pre pre' queue w,
    hsetObjectLoop (structType (pre ++ rest)) (structValue (pre ++ rest)) key
      (seq (List.length pre) (List.length rest)) queue w
    = hsetObjectLoop
        (structType (pre' ++ filter (fun fx => tagged (fst fx)) rest))
        (structValue (pre' ++ filter (fun fx => tagged (fst fx)) rest)) key
        (seq (List.length pre')
           (List.length (filter (fun fx => tagged (fst fx)) rest)))
        queue w.
Proof.
  induction rest as [|[f x] rest IH]; intros pre pre' queue w.
  - reflexivity.
  - cbn [filter fst]. destruct (tagged f) eqn:Ht.
    + cbn [List.length seq].
      destruct (invalidFieldKind
                  (Reflection.Kind {| Reflection.target := x;
                                      Reflection.flagRO := false |})) eqn:Hk.
      * rewrite !hsetObjectLoop_refuse by assumption. reflexivity.
      * destruct (reflect.IsExported f) eqn:He.
        -- assert (Ha : accepted (f, x) = true)
             by (unfold accepted; cbn [fst snd]; rewrite Hk, He; reflexivity).
           rewrite !hsetObjectLoop_queue by assumption.
           rewrite (middle_app pre), (middle_app pre').
           rewrite <- (length_snoc pre (f, x)), <- (length_snoc pre' (f, x)).
           apply IH.
        -- destruct (hsetObjectLoop_unexported_uniform key f x Ht Hk He)
             as [msg Hp].
           rewrite !Hp. reflexivity.
    + cbn [List.length seq].
      rewrite hsetObjectLoop_skip by assumption.
      rewrite middle_app, <- (length_snoc pre (f, x)).
      apply IH.
Qed.

(** X18: [HSetObject] looks at tagged fields only: fields without the tag
    [redis], and fields tagged ["-"], have no effect whatever their shape
    and whether exported or not.  Its result and its calls on a struct are
    those on the struct with only the tagged fields left. *)
Theorem HSetObject_only_tagged_fields (c : Client) (k : rdb.UniversalClient)
  (key : string) (fields : list (reflect.StructField * GoValue)) (ttl : Z)
  (w : World) :
  Client.HSetObject (set_conn k c) key (VStruct fields) ttl w
  = Client.HSetObject (set_conn k c) key
      (VStruct (filter (fun fx => tagged (fst fx)) fields)) ttl w.
Proof.
  rewrite (HSetObject_struct c k key (VStruct fields) fields ttl w eq_refl).
  rewrite (HSetObject_struct c k key
             (VStruct (filter (fun fx => tagged (fst fx)) fields))
             (filter (fun fx => tagged (fst fx)) fields) ttl w eq_refl).
  pose proof (hsetObjectLoop_filter key fields [] [] []
                (after w [CallTxPipeline])) as Hloop.
  cbn [app List.length] in Hloop. rewrite Hloop.
  reflexivity.
Qed.
